(** * SwapService (services/swap.py): a shallow embedding and its properties

    The module orchestrates a token swap against two collaborators: the
    aggregator's HTTP client ([OKXClient]) and a blockchain helper
    ([Web3Helper]).  Neither collaborator is part of the module, so both are
    interfaces here (type classes over an abstract state of the outside
    world); every call through them is recorded, with the source line of its
    call site, in the list of calls of a run.

    Python values, exceptions and the builtins the module uses ([int],
    [str], subscripts, [str.lower], [int * 1.5] on doubles) are modelled in
    the first part; the four methods of [SwapService] follow, statement by
    statement. *)

From Stdlib Require Import ZArith Lia Bool String Ascii DecimalString.
From Stdlib Require DecimalPos.
From stdpp Require Import base option list strings gmap.

Local Open Scope string_scope.
Local Open Scope Z_scope.

(** ** Python values and exceptions *)

(** The values that flow through the module: JSON documents answered by the
    aggregator, the configuration dictionaries and the transaction
    dictionaries handed to the signer.  Dictionaries keep insertion order
    and have string keys.  (JSON numbers with a fraction are not modelled.) *)
#[warnings="-register-all"]
Inductive pyval : Type :=
| PNone
| PBool (b : bool)
| PInt (z : Z)
| PStr (s : string)
| PList (l : list pyval)
| PDict (d : list (string * pyval)).

(** The exception classes the module can raise by itself, and two
    constructors for what a collaborator raises: a class derived from
    [Exception], or one that is not ([KeyboardInterrupt], [SystemExit],
    [GeneratorExit], a class derived from [BaseException] directly). *)
Inductive exn : Type :=
| KeyError (key : pyval)
| IndexError
| TypeError
| ValueError (msg : string)
| OverflowError
| ExternalError (name : string)
| ExternalBaseException (name : string).

(** [isinstance(e, Exception)]. *)
Definition is_exception (e : exn) : bool :=
  match e with ExternalBaseException _ => false | _ => true end.

(** A computation that can raise. *)
Definition res (A : Type) : Type := exn + A.

Definition res_bind {A B} (r : res A) (k : A -> res B) : res B :=
  match r with inl e => inl e | inr a => k a end.

(** *** Dictionaries *)

Fixpoint dict_get (d : list (string * pyval)) (k : string) : option pyval :=
  match d with
  | [] => None
  | (k', v) :: d' => if String.eqb k' k then Some v else dict_get d' k
  end.

(** [d[k] = v]: an existing key keeps its position, a new key is appended. *)
Fixpoint dict_set (d : list (string * pyval)) (k : string) (v : pyval)
  : list (string * pyval) :=
  match d with
  | [] => [(k, v)]
  | (k', v') :: d' =>
      if String.eqb k' k then (k', v) :: d' else (k', v') :: dict_set d' k v
  end.

(** [{**a, **b}]: the items of [b] are stored into [a] from left to right. *)
Definition dict_update (a b : list (string * pyval)) : list (string * pyval) :=
  fold_left (fun acc kv => dict_set acc (fst kv) (snd kv)) b a.

Definition dict_has (d : list (string * pyval)) (k : string) : bool :=
  match dict_get d k with Some _ => true | None => false end.

(** *** Subscripts *)

Definition norm_index (len i : Z) : option nat :=
  let j := if i <? 0 then i + len else i in
  if (0 <=? j) && (j <? len) then Some (Z.to_nat j) else None.

(** [v[k]] for a string key. *)
Definition getitem (v : pyval) (k : string) : res pyval :=
  match v with
  | PDict d =>
      match dict_get d k with
      | Some x => inr x
      | None => inl (KeyError (PStr k))
      end
  | _ => inl TypeError
  end.

(** [v[i]] for an integer index. *)
Definition getindex (v : pyval) (i : Z) : res pyval :=
  match v with
  | PList l =>
      match norm_index (Z.of_nat (List.length l)) i with
      | Some n => match nth_error l n with Some x => inr x | None => inl IndexError end
      | None => inl IndexError
      end
  | PStr s =>
      match norm_index (Z.of_nat (String.length s)) i with
      | Some n =>
          match String.get n s with
          | Some c => inr (PStr (String c EmptyString))
          | None => inl IndexError
          end
      | None => inl IndexError
      end
  | PDict _ => inl (KeyError (PInt i))
  | _ => inl TypeError
  end.

(** *** [str.lower], truth values *)

Definition lower_ascii (c : ascii) : ascii :=
  let n := nat_of_ascii c in
  if ((65 <=? n) && (n <=? 90))%nat then ascii_of_nat (n + 32) else c.

(** [s.lower()] on the bytes of [s]; bytes outside ASCII are kept, which is
    enough to compare with an ASCII constant that has no letter whose
    upper-case form lies outside ASCII. *)
Fixpoint lower (s : string) : string :=
  match s with
  | EmptyString => EmptyString
  | String c s' => String (lower_ascii c) (lower s')
  end.

(** Truth value of an [Optional[str]]: [None] and [""] are false. *)
Definition truthy (o : option string) : bool :=
  match o with
  | Some s => negb (String.eqb s "")
  | None => false
  end.

(** [o or v]. *)
Definition py_or (o : option string) (v : pyval) : pyval :=
  match o with
  | Some s => if truthy o then PStr s else v
  | None => v
  end.

(** *** [int(...)] and [str(...)] *)

(** The blanks [int] skips: tab, line feed, vertical tab, form feed,
    carriage return and space. *)
Definition is_space (c : ascii) : bool :=
  let n := nat_of_ascii c in
  (((9 <=? n) && (n <=? 13)) || (n =? 32))%nat.

Definition digit_value (c : ascii) : option Z :=
  let n := nat_of_ascii c in
  if ((48 <=? n) && (n <=? 57))%nat then Some (Z.of_nat n - 48) else None.

Fixpoint lstrip (s : string) : string :=
  match s with
  | String c s' => if is_space c then lstrip s' else s
  | EmptyString => s
  end.

Fixpoint all_space (s : string) : bool :=
  match s with
  | String c s' => is_space c && all_space s'
  | EmptyString => true
  end.

(** Decimal digits with single underscores between them, then optional
    trailing blanks.  [after_digit] tells whether the previous character
    was a digit. *)
Fixpoint parse_digits (s : string) (acc : Z) (after_digit : bool) : option Z :=
  match s with
  | EmptyString => if after_digit then Some acc else None
  | String c s' =>
      match digit_value c with
      | Some d => parse_digits s' (10 * acc + d) true
      | None =>
          if negb after_digit then None
          else if Ascii.eqb c "_"%char then parse_digits s' acc false
          else if all_space s then Some acc
          else None
      end
  end.

(** [repr(s)], as far as the message of [int] needs it: the quote is the
    double one when [s] has a single quote and no double one; the quote and
    the backslash are escaped, and so are the control characters.  (Exact on
    ASCII strings; other bytes are kept.) *)
Definition hex_digit (n : nat) : ascii :=
  ascii_of_nat (if (n <? 10)%nat then 48 + n else 87 + n).

Definition has_char (c : ascii) (s : string) : bool :=
  existsb (Ascii.eqb c) (list_ascii_of_string s).

Definition repr_quote (s : string) : ascii :=
  if has_char "'"%char s && negb (has_char (ascii_of_nat 34) s)
  then ascii_of_nat 34 else "'"%char.

Definition repr_char (quote c : ascii) : string :=
  let n := nat_of_ascii c in
  if Ascii.eqb c quote || Ascii.eqb c "\"%char then String "\"%char (String c EmptyString)
  else if (n =? 9)%nat then "\t"
  else if (n =? 10)%nat then "\n"
  else if (n =? 13)%nat then "\r"
  else if ((n <? 32) || (n =? 127))%nat then
    String "\"%char (String "x"%char
      (String (hex_digit (n / 16)) (String (hex_digit (n mod 16)) EmptyString)))
  else String c EmptyString.

Fixpoint repr_body (quote : ascii) (s : string) : string :=
  match s with
  | EmptyString => String quote EmptyString
  | String c s' => repr_char quote c ++ repr_body quote s'
  end.

Definition py_repr (s : string) : string :=
  let quote := repr_quote s in String quote (repr_body quote s).

(** The message of the [ValueError] that [int(s)] raises: the literal is
    shown by its [repr], cut after 200 characters. *)
Definition int_error (s : string) : string :=
  "invalid literal for int() with base 10: " ++ substring 0 200 (py_repr s).


(** [int(s)] for a string, base 10: blanks, an optional sign, digits.
    (Digits and blanks outside ASCII, and the interpreter's limit on the
    number of digits, are not modelled: on a string that [is_ascii] the
    function rejects what [int] rejects for not being a decimal literal.) *)
Definition int_of_string (s : string) : res Z :=
  let body := lstrip s in
  let '(neg, digits) :=
    match body with
    | String c s' =>
        if Ascii.eqb c "-"%char then (true, s')
        else if Ascii.eqb c "+"%char then (false, s')
        else (false, body)
    | EmptyString => (false, body)
    end in
  match parse_digits digits 0 false with
  | Some z => inr (if neg then - z else z)
  | None => inl (ValueError (int_error s))
  end.

(** [int(v)]. *)
Definition py_int (v : pyval) : res Z :=
  match v with
  | PInt z => inr z
  | PBool b => inr (if b then 1 else 0)
  | PStr s => int_of_string s
  | _ => inl TypeError
  end.

(** [str(z)] for an integer. *)
Definition py_str (z : Z) : string := NilZero.string_of_int (Z.to_int z).

(** *** [int(x * 1.5)]: the arithmetic on doubles

    [x * 1.5] converts the integer [x] to the nearest double (ties to even,
    [OverflowError] beyond the range), multiplies it by [1.5] with one IEEE
    rounding (an overflow gives an infinity), and [int] truncates the product
    towards zero ([OverflowError] on an infinity).  Every double met on the
    way is a multiple of one half, so integers suffice to hold them. *)

(** The nearest integer with at most 53 significant bits, ties to even
    ([0 <= m]). *)
Definition round53 (m : Z) : Z :=
  let bits := Z.log2 m + 1 in
  if bits <=? 53 then m
  else
    let sh := bits - 53 in
    let q := Z.shiftr m sh in
    let r := Z.land m (Z.ones sh) in
    let half := Z.shiftl 1 (sh - 1) in
    let q' := if (half <? r) || ((r =? half) && Z.odd q) then q + 1 else q in
    Z.shiftl q' sh.

(** A double that is a multiple of one half, or an infinity. *)
Inductive pyfloat : Type :=
| FHalves (h : Z)
| FInf (negative : bool).

(** The double an integer converts to; its value is an integer. *)
Definition float_of_int (x : Z) : res Z :=
  let m := round53 (Z.abs x) in
  if 2 ^ 1024 <=? m then inl OverflowError else inr (Z.sgn x * m).

(** [f * 1.5] for an integer-valued double [f]. *)
Definition mul_1_5 (f : Z) : pyfloat :=
  let m := round53 (3 * Z.abs f) in
  if 2 ^ 1025 <=? m then FInf (f <? 0) else FHalves (Z.sgn f * m).

(** [int(y)] for a double. *)
Definition int_of_float (y : pyfloat) : res Z :=
  match y with
  | FHalves h => inr (Z.quot h 2)
  | FInf _ => inl OverflowError
  end.

(** [int(x * 1.5)]. *)
Definition pad (x : Z) : res Z :=
  res_bind (float_of_int x) (fun f => int_of_float (mul_1_5 f)).

(** ** The collaborators and the calls made to them *)

(** An instance of the blockchain helper, as [Web3Helper.get_instance]
    returns it: the module reads its attribute [chain_id] and calls its
    methods. *)
Record Web3Helper : Type := MkHelper {
  chain_id_of : string;
  instance_ref : nat
}.

(** One constructor per method or property of a collaborator that the module
    uses, with the arguments of the call. *)
Inductive call : Type :=
| GetInstance (chain_id : string)
| GetApproveTransaction (params : pyval)
| GetSwap (params : pyval)
| GetAllowance (h : Web3Helper) (token_address : string) (owner spender : pyval)
| GasPrice (h : Web3Helper)
| GetTransactionCount (h : Web3Helper) (address : pyval)
| SendTransaction (h : Web3Helper) (transaction private_key : pyval)
| GetTokenDecimals (h : Web3Helper) (token_address : string)
| ParseTokenAmount (h : Web3Helper) (amount : string) (decimals : pyval)
| WaitForTransactionReceipt (h : Web3Helper) (tx_hash : string).

(** What a call answered. *)
Inductive response : Type :=
| RHelper (h : Web3Helper)
| RInt (z : Z)
| RStr (s : string)
| RJson (v : pyval).

(** A call that was made: the source line of the call site, the call, and
    how it ended. *)
Record event : Type := Ev {
  site : nat;
  what : call;
  result : res response
}.

(** The calls that go over HTTP (the aggregator) or RPC (the node).
    [get_instance] hands out the helper of a chain and [parse_token_amount]
    scales a decimal string; they are collaborator code, but no request. *)
Definition is_remote (c : call) : bool :=
  match c with
  | GetInstance _ | ParseTokenAmount _ _ _ => false
  | _ => true
  end.

Definition failed (ev : event) : bool :=
  match result ev with inl _ => true | inr _ => false end.

(** What the module writes to its logger and to standard output. *)
Inductive logarg : Type :=
| LStr (s : string)
| LInt (z : Z)
| LVal (v : pyval)
| LExn (e : exn).

Inductive log_entry : Type :=
| LogInfo (template : string) (args : list logarg)
| LogError (template : string) (args : list logarg)
| Printed (template : string) (args : list logarg).

(** The aggregator's client, over a state [W] of the outside world. *)
Class OKXClient (W : Type) : Type := {
  okx_get_approve_transaction : pyval -> W -> res pyval * W;
  okx_get_swap : pyval -> W -> res pyval * W
}.

(** The blockchain helper and the node behind it. *)
Class Web3 (W : Type) : Type := {
  web3_get_instance : string -> W -> res Web3Helper * W;
  web3_get_allowance : Web3Helper -> string -> pyval -> pyval -> W -> res Z * W;
  web3_gas_price : Web3Helper -> W -> res Z * W;
  web3_get_transaction_count : Web3Helper -> pyval -> W -> res Z * W;
  web3_send_transaction : Web3Helper -> pyval -> pyval -> W -> res string * W;
  web3_get_token_decimals : Web3Helper -> string -> W -> res Z * W;
  web3_parse_token_amount : Web3Helper -> string -> pyval -> W -> res Z * W;
  web3_wait_for_transaction_receipt : Web3Helper -> string -> W -> res pyval * W
}.

(** ** Runs *)

(** The result of running a piece of the module from a state of the world:
    what it returned or raised, the world afterwards, the calls it made and
    the log lines it wrote, both in order. *)
Record run (W A : Type) : Type := Run {
  outcome : res A;
  world : W;
  calls : list event;
  logs : list log_entry
}.
Arguments Run {W A} _ _ _ _.
Arguments outcome {W A} _.
Arguments world {W A} _.
Arguments calls {W A} _.
Arguments logs {W A} _.

Definition M (W A : Type) : Type := W -> run W A.

Section Monad.
Context {W : Type}.

Definition ret {A} (a : A) : M W A := fun w => Run (inr a) w [] [].

Definition raise {A} (e : exn) : M W A := fun w => Run (inl e) w [] [].

Definition bind {A B} (m : M W A) (k : A -> M W B) : M W B := fun w =>
  match m w with
  | Run (inl e) w1 t1 l1 => Run (inl e) w1 t1 l1
  | Run (inr a) w1 t1 l1 =>
      match k a w1 with
      | Run o w2 t2 l2 => Run o w2 (t1 ++ t2) (l1 ++ l2)
      end
  end.

(** [try: body / except ... as e: handler e]: what [body] raised is handed
    to [handler]. *)
Definition catch {A} (body : M W A) (handler : exn -> M W A) : M W A := fun w =>
  match body w with
  | Run (inl e) w1 t1 l1 =>
      match handler e w1 with
      | Run o w2 t2 l2 => Run o w2 (t1 ++ t2) (l1 ++ l2)
      end
  | Run (inr a) w1 t1 l1 => Run (inr a) w1 t1 l1
  end.

(** A step that touches no collaborator. *)
Definition lift {A} (r : res A) : M W A := fun w =>
  match r with
  | inl e => Run (inl e) w [] []
  | inr a => Run (inr a) w [] []
  end.

Definition log (l : log_entry) : M W unit := fun w => Run (inr tt) w [] [l].

(** A line that is written under a condition. *)
Definition log_when (b : bool) (l : log_entry) : M W unit := fun w =>
  Run (inr tt) w [] (if b then [l] else []).

(** A call to a collaborator from source line [line]: the oracle answers
    from the current state of the world, and the call is recorded. *)
Definition ext {A} (line : nat) (c : call) (inj : A -> response)
    (oracle : W -> res A * W) : M W A := fun w =>
  match oracle w with
  | (inl e, w') => Run (inl e) w' [Ev line c (inl e)] []
  | (inr a, w') => Run (inr a) w' [Ev line c (inr (inj a))] []
  end.
End Monad.

Notation "x <- m ;; k" := (bind m (fun x => k))
  (at level 100, m at next level, right associativity).
Notation "m ;;; k" := (bind m (fun _ => k))
  (at level 100, right associativity).

(** ** services/swap.py *)

(** The address that stands for the native token of a chain. *)
Definition NATIVE : string := "0xeeeeeeeeeeeeeeeeeeeeeeeeeeeeeeeeeeeeeeee".

(** [token.lower() == "0xeee...e"]. *)
Definition is_native (token : string) : bool := String.eqb (lower token) NATIVE.

(** [class SwapService]: the client lives in the outside world, the wallet
    configuration is read once by [__init__]. *)
Record SwapService : Type := MkService {
  wallet_config : pyval
}.

(** [d[k]] on a configuration dictionary (config/settings.py). *)
Definition config_get (d : gmap string pyval) (k : string) : res pyval :=
  match d !! k with
  | Some v => inr v
  | None => inl (KeyError (PStr k))
  end.

Section Service.
Context {W : Type} {okx : OKXClient W} {web3 : Web3 W}.

(** config/settings.py: the two dictionaries the module imports. *)
Variable WALLET_CONFIG : gmap string pyval.
Variable NATIVE_TOKENS : gmap string pyval.

(** *** The call sites *)

Definition get_instance (line : nat) (chain_id : string) : M W Web3Helper :=
  ext line (GetInstance chain_id) RHelper (web3_get_instance chain_id).

Definition get_approve_transaction (line : nat) (params : pyval) : M W pyval :=
  ext line (GetApproveTransaction params) RJson (okx_get_approve_transaction params).

Definition get_swap (line : nat) (params : pyval) : M W pyval :=
  ext line (GetSwap params) RJson (okx_get_swap params).

Definition get_allowance (line : nat) (h : Web3Helper) (token_address : string)
    (owner_address spender_address : pyval) : M W Z :=
  ext line (GetAllowance h token_address owner_address spender_address) RInt
    (web3_get_allowance h token_address owner_address spender_address).

Definition eth_gas_price (line : nat) (h : Web3Helper) : M W Z :=
  ext line (GasPrice h) RInt (web3_gas_price h).

Definition eth_get_transaction_count (line : nat) (h : Web3Helper)
    (address : pyval) : M W Z :=
  ext line (GetTransactionCount h address) RInt (web3_get_transaction_count h address).

Definition send_transaction (line : nat) (h : Web3Helper)
    (transaction private_key : pyval) : M W string :=
  ext line (SendTransaction h transaction private_key) RStr
    (web3_send_transaction h transaction private_key).

Definition get_token_decimals (line : nat) (h : Web3Helper)
    (token_address : string) : M W Z :=
  ext line (GetTokenDecimals h token_address) RInt (web3_get_token_decimals h token_address).

Definition parse_token_amount (line : nat) (h : Web3Helper) (amount : string)
    (decimals : pyval) : M W Z :=
  ext line (ParseTokenAmount h amount decimals) RInt
    (web3_parse_token_amount h amount decimals).

Definition eth_wait_for_transaction_receipt (line : nat) (h : Web3Helper)
    (tx_hash : string) : M W pyval :=
  ext line (WaitForTransactionReceipt h tx_hash) RJson
    (web3_wait_for_transaction_receipt h tx_hash).

(** [try: body / except Exception as e: logger.error(...); raise].  The
    clause takes the instances of [Exception]: the line is written and the
    exception raised again.  Any other exception leaves the statement as it
    came.  Either way the exception goes on to the caller; the line is
    written when it is an instance of [Exception]. *)
Definition logged {A} (template : string) (args : list logarg) (body : M W A) : M W A :=
  catch body (fun e =>
    log_when (is_exception e) (LogError template (args ++ [LExn e])) ;;; raise e).

(** *** [__init__] *)

Definition init : res SwapService :=
  res_bind (config_get WALLET_CONFIG "default") (fun wc => inr (MkService wc)).

(** *** [check_and_approve] (lines 16-63) *)

Definition check_and_approve (self : SwapService) (chain_id token_address : string)
    (owner_address : pyval) (amount : string) : M W (option string) :=
  logged "Failed to check and approve: {}" [] (
    web3_helper <- get_instance 19 chain_id ;;
    approve_data <- get_approve_transaction 22
      (PDict [("chainId", PStr chain_id);
              ("tokenContractAddress", PStr token_address);
              ("approveAmount", PStr amount)]) ;;
    spender_address <- lift
      (res_bind (getitem approve_data "data") (fun d =>
       res_bind (getindex d 0) (fun d0 => getitem d0 "spenderAddress"))) ;;
    current_allowance <- get_allowance 31 web3_helper token_address
                           owner_address spender_address ;;
    required <- lift (int_of_string amount) ;;
    if current_allowance <? required then
      log (LogInfo "Current allowance {} is less than required amount {}, approving..."
             [LInt current_allowance; LStr amount]) ;;;
      tx_data <- lift
        (res_bind (getitem approve_data "data") (fun d => getindex d 0)) ;;
      gas_price <- eth_gas_price 42 web3_helper ;;
      nonce <- eth_get_transaction_count 43 web3_helper owner_address ;;
      gasPrice <- lift (pad gas_price) ;;
      gas <- lift (res_bind (res_bind (getitem tx_data "gasLimit") py_int) pad) ;;
      data <- lift (getitem tx_data "data") ;;
      chainId <- lift (int_of_string chain_id) ;;
      let transaction :=
        PDict [("nonce", PInt nonce);
               ("to", PStr token_address);
               ("gasPrice", PInt gasPrice);
               ("gas", PInt gas);
               ("data", data);
               ("value", PInt 0);
               ("chainId", PInt chainId)] in
      private_key <- lift (getitem (wallet_config self) "private_key") ;;
      tx_hash <- send_transaction 55 web3_helper transaction private_key ;;
      log (LogInfo "Approval transaction sent: {}" [LStr tx_hash]) ;;;
      ret (Some tx_hash)
    else
      ret None).

(** *** [_get_amount_in_wei] (lines 65-89) *)

Definition _get_amount_in_wei (web3_helper : Web3Helper) (token_address amount : string)
    : M W string :=
  logged "Failed to convert amount {} for token {}: {}" [LStr amount; LStr token_address] (
    let chain_id := chain_id_of web3_helper in
    decimals <-
      (if String.eqb (lower token_address) NATIVE then
         match NATIVE_TOKENS !! chain_id with
         | None => raise (ValueError ("Unsupported chain ID: " ++ chain_id))
         | Some entry => lift (getitem entry "decimals")
         end
       else
         d <- get_token_decimals 84 web3_helper token_address ;;
         ret (PInt d)) ;;
    wei <- parse_token_amount 86 web3_helper amount decimals ;;
    ret (py_str wei)).

(** *** [create_swap_transaction] (lines 91-122) *)

(** The request built at lines 101-112. *)
Definition swap_params (chain_id from_token to_token raw_amount : string)
    (user_address : pyval) (recipient_address : option string) (slippage : string)
    (kwargs : list (string * pyval)) : list (string * pyval) :=
  let params :=
    dict_update
      [("chainId", PStr chain_id);
       ("fromTokenAddress", PStr from_token);
       ("toTokenAddress", PStr to_token);
       ("amount", PStr raw_amount);
       ("userWalletAddress", user_address);
       ("slippage", PStr slippage)]
      kwargs in
  match recipient_address with
  | Some r =>
      if truthy recipient_address then dict_set params "swapReceiverAddress" (PStr r)
      else params
  | None => params
  end.

Definition create_swap_transaction (self : SwapService)
    (chain_id from_token to_token amount : string) (user_address : pyval)
    (recipient_address : option string) (slippage : string)
    (kwargs : list (string * pyval)) : M W pyval :=
  logged "Failed to create swap transaction: {}" [] (
    web3_helper <- get_instance 96 chain_id ;;
    raw_amount <- _get_amount_in_wei web3_helper from_token amount ;;
    let params := swap_params chain_id from_token to_token raw_amount user_address
                    recipient_address slippage kwargs in
    log (Printed "create_swap_transaction params: {}" [LVal (PDict params)]) ;;;
    swap_data <- get_swap 115 (PDict params) ;;
    log (LogInfo "Created swap transaction for {} of {} to {}"
           [LStr amount; LStr from_token; LStr to_token]) ;;;
    log (LogInfo "Recipient address: {}" [LVal (py_or recipient_address user_address)]) ;;;
    ret swap_data).

(** *** [execute_swap] (lines 124-184) *)

Definition execute_swap (self : SwapService)
    (chain_id from_token to_token amount : string)
    (recipient_address : option string) (slippage wallet_name : string)
    (kwargs : list (string * pyval)) : M W string :=
  logged "Failed to execute swap: {}" [] (
    fallback <- lift (config_get WALLET_CONFIG "default") ;;
    let wallet := default fallback (WALLET_CONFIG !! wallet_name) in
    user_address <- lift (getitem wallet "address") ;;
    web3_helper <- get_instance 132 chain_id ;;
    raw_amount <- _get_amount_in_wei web3_helper from_token amount ;;
    (if negb (String.eqb (lower from_token) NATIVE) then
       approve_tx <- check_and_approve self chain_id from_token user_address raw_amount ;;
       if truthy approve_tx then
         match approve_tx with
         | Some tx => eth_wait_for_transaction_receipt 147 web3_helper tx ;;; ret tt
         | None => ret tt
         end
       else ret tt
     else ret tt) ;;;
    swap_data <- create_swap_transaction self chain_id from_token to_token amount
                   user_address recipient_address slippage kwargs ;;
    log (LogInfo "Swap data: {}" [LVal swap_data]) ;;;
    tx_info <- lift
      (res_bind (getitem swap_data "data") (fun d =>
       res_bind (getindex d 0) (fun d0 => getitem d0 "tx"))) ;;
    nonce <- eth_get_transaction_count 165 web3_helper user_address ;;
    to <- lift (getitem tx_info "to") ;;
    gasPrice <- lift (res_bind (res_bind (getitem tx_info "gasPrice") py_int) pad) ;;
    gas <- lift (res_bind (res_bind (getitem tx_info "gas") py_int) pad) ;;
    data <- lift (getitem tx_info "data") ;;
    value <- lift (res_bind (getitem tx_info "value") py_int) ;;
    chainId <- lift (int_of_string chain_id) ;;
    let transaction :=
      PDict [("nonce", PInt nonce);
             ("to", to);
             ("gasPrice", PInt gasPrice);
             ("gas", PInt gas);
             ("data", data);
             ("value", PInt value);
             ("chainId", PInt chainId)] in
    private_key <- lift (getitem wallet "private_key") ;;
    tx_hash <- send_transaction 178 web3_helper transaction private_key ;;
    log (LogInfo "Swap transaction sent: {}" [LStr tx_hash]) ;;;
    ret tx_hash).
End Service.

(** ** A scripted world

    A small deterministic instance of the two collaborators, used to run the
    module on concrete inputs.  The state of the world is the number of
    transactions the node has accepted, which is also the nonce it reports. *)
Record script : Type := Script {
  s_approve : res pyval;
  s_swap : res pyval;
  s_allowance : Z;
  s_gas_price : Z;
  s_decimals : Z;
  s_parse : string -> res Z;
  s_send : nat -> res string
}.

Definition script_okx (sc : script) : OKXClient nat := {|
  okx_get_approve_transaction := fun _ w => (s_approve sc, w);
  okx_get_swap := fun _ w => (s_swap sc, w)
|}.

Definition script_web3 (sc : script) : Web3 nat := {|
  web3_get_instance := fun chain_id w => (inr (MkHelper chain_id 0), w);
  web3_get_allowance := fun _ _ _ _ w => (inr (s_allowance sc), w);
  web3_gas_price := fun _ w => (inr (s_gas_price sc), w);
  web3_get_transaction_count := fun _ _ w => (inr (Z.of_nat w), w);
  web3_send_transaction := fun _ _ _ w => (s_send sc w, S w);
  web3_get_token_decimals := fun _ _ w => (inr (s_decimals sc), w);
  web3_parse_token_amount := fun _ amount _ w => (s_parse sc amount, w);
  web3_wait_for_transaction_receipt := fun _ _ w => (inr (PDict [("status", PInt 1)]), w)
|}.

(** A configuration with one wallet and one chain. *)
Definition demo_wallets : gmap string pyval :=
  {[ "default" := PDict [("address", PStr "0xA11ce"); ("private_key", PStr "k0")] ]}.

Definition demo_natives : gmap string pyval :=
  {[ "1" := PDict [("symbol", PStr "ETH"); ("decimals", PInt 18)] ]}.

Definition demo_service : SwapService :=
  MkService (PDict [("address", PStr "0xA11ce"); ("private_key", PStr "k0")]).

(** The aggregator's answers: an approval with its calldata, and a swap. *)
Definition demo_approve : pyval :=
  PDict [("code", PStr "0");
         ("data", PList [PDict [("data", PStr "0x095ea7b3");
                                ("dexContractAddress", PStr "0xDe8");
                                ("gasLimit", PStr "70000");
                                ("gasPrice", PStr "20000000000");
                                ("spenderAddress", PStr "0x5pender")]])].

Definition demo_swap : pyval :=
  PDict [("code", PStr "0");
         ("data", PList [PDict [("tx", PDict [("to", PStr "0xDe8");
                                              ("gasPrice", PStr "20000000001");
                                              ("gas", PStr "250001");
                                              ("data", PStr "0xswapdata");
                                              ("value", PStr "0")])]])].

(** The script of a world in which every call succeeds: the node reports
    [allowance] and [gas_price], and answers the first transaction with the
    hash ["0xaaa"] and any later one with ["0xbbb"]. *)
Definition script_of (approve swap : res pyval) (allowance gas_price : Z) : script := {|
  s_approve := approve;
  s_swap := swap;
  s_allowance := allowance;
  s_gas_price := gas_price;
  s_decimals := 6;
  s_parse := fun _ => inr 1500000;
  s_send := fun n => inr (if Nat.eqb n 0 then "0xaaa" else "0xbbb")
|}.

(** No allowance yet: an approval is needed. *)
Definition demo_script : script :=
  script_of (inr demo_approve) (inr demo_swap) 0 20000000000.

(** An allowance that covers the amount. *)
Definition approved_script : script :=
  script_of (inr demo_approve) (inr demo_swap) 2000000 20000000000.

(** A gas price beyond [2^53 / 3] wei. *)
Definition pricey_script : script :=
  script_of (inr demo_approve) (inr demo_swap) 0 3002399751580333.

(** The aggregator refuses the swap request. *)
Definition offline_script : script :=
  script_of (inr demo_approve) (inl (ExternalError "HTTPError")) 0 20000000000.

(** The node answers the first transaction with an empty string instead of
    a hash. *)
Definition unhashed_script : script := {|
  s_approve := inr demo_approve;
  s_swap := inr demo_swap;
  s_allowance := 0;
  s_gas_price := 20000000000;
  s_decimals := 6;
  s_parse := fun _ => inr 1500000;
  s_send := fun n => inr (if Nat.eqb n 0 then EmptyString else "0xbbb")
|}.

(** The aggregator's client is interrupted during the swap request. *)
Definition interrupted_script : script :=
  script_of (inr demo_approve) (inl (ExternalBaseException "KeyboardInterrupt")) 0
    20000000000.

Definition demo_token : string := "0xdAC17F958D2ee523a2206206994597C13D831ec7".

(** [execute_swap] and its two helpers in a scripted world, from the state in
    which the node has accepted no transaction yet. *)
Definition demo_execute_swap (sc : script) (chain_id from_token to_token : string)
    (recipient : option string) (wallet_name : string) (kwargs : list (string * pyval))
    : run nat string :=
  execute_swap (okx := script_okx sc) (web3 := script_web3 sc) demo_wallets demo_natives
    demo_service chain_id from_token to_token "1.5" recipient "0.03" wallet_name kwargs
    0%nat.

Definition demo_check_and_approve (sc : script) : run nat (option string) :=
  check_and_approve (okx := script_okx sc) (web3 := script_web3 sc)
    demo_service "1" demo_token (PStr "0xA11ce") "1500000" 0%nat.

Definition demo_create_swap_transaction (sc : script) (recipient : option string)
    (kwargs : list (string * pyval)) : run nat pyval :=
  create_swap_transaction (okx := script_okx sc) (web3 := script_web3 sc) demo_natives
    demo_service "1" demo_token NATIVE "1.5" (PStr "0xA11ce") recipient "0.03" kwargs
    0%nat.

(** ** Vocabulary for the properties *)

(** The exception classes of the interpreter, as opposed to a collaborator's
    own. *)
Definition builtin (e : exn) : bool :=
  match e with
  | ExternalError _ | ExternalBaseException _ => false
  | _ => true
  end.

Definition succeeded (ev : event) : Prop := failed ev = false.

(** A run is fail-stop when either every call it made succeeded (and what it
    raised, if anything, is an exception of the interpreter), or the last
    call it made is the only one that failed and the run raised that very
    exception. *)
Definition fail_stop {W A} (r : run W A) : Prop :=
  (Forall succeeded (calls r) /\ forall e, outcome r = inl e -> builtin e = true)
  \/ (exists t ev e, calls r = (t ++ [ev])%list /\ Forall succeeded t /\
                     result ev = inl e /\ outcome r = inl e).

Definition FailStop {W A} (m : M W A) : Prop := forall w, fail_stop (m w).

(** The call sites of a run, in the order they were executed, are picked
    from the list [l] from left to right. *)
Definition Uses {W A} (m : M W A) (l : list nat) : Prop :=
  forall w, map site (calls (m w)) `sublist_of` l.

Definition builtin_res {A} (r : res A) : Prop :=
  forall e, r = inl e -> builtin e = true.

(** The number of HTTP and RPC calls of a run. *)
Definition remote_calls (t : list event) : nat :=
  List.length (List.filter (fun ev => is_remote (what ev)) t).

(** Whether a call hands a transaction to the node. *)
Definition is_send (c : call) : bool :=
  match c with SendTransaction _ _ _ => true | _ => false end.

(** Whether a call was made from source line [line]. *)
Definition made (line : nat) (t : list event) : bool :=
  existsb (fun ev => Nat.eqb (site ev) line) t.

(** The call sites in the order of the text of [execute_swap], the methods
    it calls being inlined where they are called. *)
Definition check_and_approve_sites : list nat := [19; 22; 31; 42; 43; 55]%nat.
Definition amount_sites : list nat := [84; 86]%nat.
Definition create_swap_sites : list nat := (96 :: amount_sites ++ [115])%nat%list.
Definition execute_swap_sites : list nat :=
  (132 :: amount_sites ++ check_and_approve_sites ++ 147 :: create_swap_sites
     ++ [165; 178])%nat%list.

(** How often a call was made from source line [line]. *)
Definition times (line : nat) (t : list event) : nat :=
  List.length (List.filter (fun ev => Nat.eqb (site ev) line) t).

(** The calls of a [_get_amount_in_wei] that returned. *)
Inductive amount_calls (h : Web3Helper) (token amount : string) : list event -> Prop :=
| amount_calls_native d wei :
    is_native token = true ->
    amount_calls h token amount
      [Ev 86 (ParseTokenAmount h amount d) (inr (RInt wei))]
| amount_calls_token d wei :
    is_native token = false ->
    amount_calls h token amount
      [Ev 84 (GetTokenDecimals h token) (inr (RInt d));
       Ev 86 (ParseTokenAmount h amount (PInt d)) (inr (RInt wei))].

(** The calls of the approval step (lines 137-147) of an [execute_swap] that
    returned; [h] is the helper obtained at line 132. *)
Inductive approval_calls (chain_id : string) (h : Web3Helper) (token : string)
  : list event -> Prop :=
| approval_skipped :
    is_native token = true ->
    approval_calls chain_id h token []
| approval_sufficient h' params approve_data owner spender allowance :
    is_native token = false ->
    approval_calls chain_id h token
      [Ev 19 (GetInstance chain_id) (inr (RHelper h'));
       Ev 22 (GetApproveTransaction params) (inr (RJson approve_data));
       Ev 31 (GetAllowance h' token owner spender) (inr (RInt allowance))]
| approval_awaited h' params approve_data owner spender allowance
    gas_price nonce transaction key tx receipt :
    is_native token = false ->
    tx <> "" ->
    approval_calls chain_id h token
      [Ev 19 (GetInstance chain_id) (inr (RHelper h'));
       Ev 22 (GetApproveTransaction params) (inr (RJson approve_data));
       Ev 31 (GetAllowance h' token owner spender) (inr (RInt allowance));
       Ev 42 (GasPrice h') (inr (RInt gas_price));
       Ev 43 (GetTransactionCount h' owner) (inr (RInt nonce));
       Ev 55 (SendTransaction h' transaction key) (inr (RStr tx));
       Ev 147 (WaitForTransactionReceipt h tx) (inr (RJson receipt))]
| approval_not_awaited h' params approve_data owner spender allowance
    gas_price nonce transaction key :
    is_native token = false ->
    approval_calls chain_id h token
      [Ev 19 (GetInstance chain_id) (inr (RHelper h'));
       Ev 22 (GetApproveTransaction params) (inr (RJson approve_data));
       Ev 31 (GetAllowance h' token owner spender) (inr (RInt allowance));
       Ev 42 (GasPrice h') (inr (RInt gas_price));
       Ev 43 (GetTransactionCount h' owner) (inr (RInt nonce));
       Ev 55 (SendTransaction h' transaction key) (inr (RStr ""))].

(** A run stops at the first call that fails: a failed call is the last call
    of the run, and every call before it succeeded. *)
Definition stops_at_failure {W A} (r : run W A) : Prop :=
  forall ev e, ev ∈ calls r -> result ev = inl e ->
    exists t, calls r = (t ++ [ev])%list /\ Forall succeeded t.

(** From the world [w], the single call [parse_token_amount(amount, decimals)]
    was made; [out] is the string form of its answer (or what it raised),
    [w'] the world afterwards and [t] the call. *)
Definition converts {W} {web3 : Web3 W} (h : Web3Helper) (amount : string)
    (decimals : pyval) (w : W) (out : res string) (w' : W) (t : list event) : Prop :=
  match web3_parse_token_amount h amount decimals w with
  | (inl e, w1) =>
      out = inl e /\ w' = w1 /\
      t = [Ev 86 (ParseTokenAmount h amount decimals) (inl e)]
  | (inr wei, w1) =>
      out = inr (py_str wei) /\ w' = w1 /\
      t = [Ev 86 (ParseTokenAmount h amount decimals) (inr (RInt wei))]
  end.

(** Every call of every run of [m] satisfies [P]. *)
Definition Every {W A} (P : event -> Prop) (m : M W A) : Prop :=
  forall w, Forall P (calls (m w)).

(** How a call uses the wallet: allowances and nonces are asked for
    [address]; the approval (line 55) is signed with the key of the service's
    own wallet configuration, any other transaction with the key of
    [wallet]. *)
Definition wallet_use (self : SwapService) (wallet address : pyval) (ev : event) : Prop :=
  match what ev with
  | GetAllowance _ _ owner _ => owner = address
  | GetTransactionCount _ a => a = address
  | SendTransaction _ _ key =>
      getitem (if Nat.eqb (site ev) 55 then wallet_config self else wallet)
        "private_key" = inr key
  | _ => True
  end.

(** *** Vocabulary for the further properties *)

(** The value of a string of decimal digits read after [acc]. *)
Fixpoint uint_value (d : Decimal.uint) (acc : Z) : Z :=
  match d with
  | Decimal.Nil => acc
  | Decimal.D0 l => uint_value l (10 * acc + 0)
  | Decimal.D1 l => uint_value l (10 * acc + 1)
  | Decimal.D2 l => uint_value l (10 * acc + 2)
  | Decimal.D3 l => uint_value l (10 * acc + 3)
  | Decimal.D4 l => uint_value l (10 * acc + 4)
  | Decimal.D5 l => uint_value l (10 * acc + 5)
  | Decimal.D6 l => uint_value l (10 * acc + 6)
  | Decimal.D7 l => uint_value l (10 * acc + 7)
  | Decimal.D8 l => uint_value l (10 * acc + 8)
  | Decimal.D9 l => uint_value l (10 * acc + 9)
  end.

(** Whether a log line is an error line. *)
Definition is_error (l : log_entry) : bool :=
  match l with LogError _ _ => true | _ => false end.

(** A run of [m] that returns, or that raises what is no instance of
    [Exception], has written no error line. *)
Definition Quiet {W A} (m : M W A) : Prop :=
  forall w, match outcome (m w) with
            | inr _ => Forall (fun l => is_error l = false) (logs (m w))
            | inl e =>
                is_exception e = false ->
                Forall (fun l => is_error l = false) (logs (m w))
            end.

(** The call sites of [execute_swap] on the native token, in the order of
    the text. *)
Definition native_sites : list nat := [132; 86; 96; 86; 115; 165; 178]%nat.

(** The six fields that [create_swap_transaction] always puts in a request
    (lines 102-107). *)
Definition base_params (chain_id from_token to_token raw_amount : string)
    (user_address : pyval) (slippage : string) : list (string * pyval) :=
  [("chainId", PStr chain_id);
   ("fromTokenAddress", PStr from_token);
   ("toTokenAddress", PStr to_token);
   ("amount", PStr raw_amount);
   ("userWalletAddress", user_address);
   ("slippage", PStr slippage)].

(** The parameters of [create_swap_transaction] (lines 91-93). *)
Definition create_swap_parameters : list string :=
  ["self"; "chain_id"; "from_token"; "to_token"; "amount"; "user_address";
   "recipient_address"; "slippage"].

(** What [**kwargs] can hold in a call of a function with the parameters
    [parameters]: every name once, and no name of a parameter (such a
    keyword is bound to the parameter, or the call raises [TypeError]
    before the body is entered). *)
Definition keyword_arguments (parameters : list string)
    (kwargs : list (string * pyval)) : Prop :=
  NoDup (map fst kwargs) /\ Forall (fun kv => fst kv ∉ parameters) kwargs.

(** A configuration with a wallet, but none called ["default"]. *)
Definition headless_wallets : gmap string pyval :=
  {[ "main" := PDict [("address", PStr "0xA11ce"); ("private_key", PStr "k0")] ]}.

(** A configuration with a second wallet beside the default one. *)
Definition two_wallets : gmap string pyval :=
  {[ "default" := PDict [("address", PStr "0xA11ce"); ("private_key", PStr "k0")];
     "trader" := PDict [("address", PStr "0xB0b"); ("private_key", PStr "k1")] ]}.

(** ** Properties of the builtins *)

Example int_of_string_accepts :
  int_of_string "  12_000 " = inr 12000 /\ int_of_string "-7" = inr (-7) /\
  int_of_string "+007" = inr 7.
Proof. repeat split. Qed.

Example int_of_string_rejects :
  Forall (fun s => int_of_string s = inl (ValueError (int_error s)))
    [""; "  "; "1__0"; "_1"; "1_"; "- 1"; "1.5"; "12 3"; "0x10"] /\
  int_error "1.5" = "invalid literal for int() with base 10: '1.5'" /\
  int_error "it's" = String.append "invalid literal for int() with base 10: "
                       (String (ascii_of_nat 34) (String.append "it's"
                          (String (ascii_of_nat 34) EmptyString))).
Proof. split; [repeat constructor | split; reflexivity]. Qed.

Example py_str_decimal :
  py_str 0 = "0" /\ py_str (-15) = "-15" /\ py_str 1500000 = "1500000".
Proof. repeat split. Qed.

Example is_native_any_case :
  is_native "0xEeeeeEeeeEeEeeEeEeEeeEEEeeeeEeeeeeeeEEeE" = true /\
  is_native "0xdAC17F958D2ee523a2206206994597C13D831ec7" = false.
Proof. repeat split. Qed.

Example pad_on_doubles :
  pad 20000000000 = inr 30000000000 /\
  pad 70001 = inr 105001 /\
  pad 9007199254740993 = inr 13510798882111488 /\
  pad (2 ^ 1024) = inl OverflowError.
Proof. repeat split. Qed.

Example init_demo_service : init demo_wallets = inr demo_service.
Proof. reflexivity. Qed.

Lemma builtin_res_bind {A B} (r : res A) (k : A -> res B) :
  builtin_res r -> (forall a, builtin_res (k a)) -> builtin_res (res_bind r k).
Proof.
  intros Hr Hk e. destruct r as [e'|a]; simpl.
  - intros [= ->]. now apply Hr.
  - apply Hk.
Qed.

Lemma builtin_getitem v k : builtin_res (getitem v k).
Proof.
  intros e. unfold getitem. destruct v; try (intros [= <-]; reflexivity).
  destruct (dict_get d k); intros [= <-]. reflexivity.
Qed.

Lemma builtin_getindex v i : builtin_res (getindex v i).
Proof.
  intros e. unfold getindex.
  destruct v; try (intros [= <-]; reflexivity).
  - destruct (norm_index _ _); [destruct (String.get _ _)|]; intros [= <-]; reflexivity.
  - destruct (norm_index _ _); [destruct (nth_error _ _)|]; intros [= <-]; reflexivity.
Qed.

Lemma builtin_int_of_string s : builtin_res (int_of_string s).
Proof.
  intros e. unfold int_of_string.
  destruct (match lstrip s with EmptyString => _ | String _ _ => _ end) as [neg digits].
  destruct (parse_digits digits 0 false); intros [= <-]. reflexivity.
Qed.


Lemma builtin_py_int v : builtin_res (py_int v).
Proof.
  destruct v; simpl; try (intros e [= <-]; reflexivity).
  apply builtin_int_of_string.
Qed.

Lemma builtin_pad x : builtin_res (pad x).
Proof.
  intros e. unfold pad, float_of_int, int_of_float.
  destruct (2 ^ 1024 <=? _); simpl; [intros [= <-]; reflexivity|].
  destruct (mul_1_5 _); intros [= <-]. reflexivity.
Qed.

Lemma builtin_config_get d k : builtin_res (config_get d k).
Proof.
  intros e. unfold config_get. destruct (d !! k); intros [= <-]. reflexivity.
Qed.

Create HintDb builtins.

#[local] Hint Resolve builtin_res_bind builtin_getitem builtin_getindex
  builtin_int_of_string builtin_py_int builtin_pad builtin_config_get : builtins.

(** ** Properties of dictionaries *)

Lemma dict_has_cons k v d k' :
  dict_has ((k, v) :: d) k' = String.eqb k k' || dict_has d k'.
Proof. unfold dict_has. cbn. now destruct (String.eqb k k'). Qed.

Lemma dict_get_set_eq d k v : dict_get (dict_set d k v) k = Some v.
Proof.
  induction d as [|[k' v'] d IH]; cbn.
  - now rewrite String.eqb_refl.
  - destruct (String.eqb k' k) eqn:E; cbn; rewrite E; [reflexivity | exact IH].
Qed.

Lemma dict_has_set d k v k' :
  dict_has (dict_set d k v) k' = String.eqb k k' || dict_has d k'.
Proof.
  induction d as [|[k0 v0] d IH]; cbn.
  - now rewrite dict_has_cons.
  - destruct (String.eqb k0 k) eqn:E; rewrite !dict_has_cons.
    + apply String.eqb_eq in E as ->. now destruct (String.eqb k k').
    + rewrite IH. destruct (String.eqb k0 k'), (String.eqb k k'); reflexivity.
Qed.

Lemma dict_has_update a b k :
  dict_has (dict_update a b) k = dict_has a k || dict_has b k.
Proof.
  unfold dict_update. revert a.
  induction b as [|[k1 v1] b IH]; intros a; cbn [fold_left fst snd].
  - unfold dict_has at 3. cbn. now rewrite orb_false_r.
  - rewrite IH, dict_has_set, dict_has_cons.
    destruct (String.eqb k1 k), (dict_has a k), (dict_has b k); reflexivity.
Qed.

(** ** The padding on doubles *)

Lemma round53_small m : 0 <= m < 2 ^ 53 -> round53 m = m.
Proof.
  intros [H0 H53]. unfold round53.
  destruct (Z.log2 m + 1 <=? 53) eqn:E; [reflexivity|].
  apply Z.leb_gt in E. exfalso.
  destruct (Z.eq_dec m 0) as [->|Hm]; [cbn in E; lia|].
  assert (Z.log2 m < 53) by (apply Z.log2_lt_pow2; lia). lia.
Qed.

(** Below [2^53 / 3] the product is exact in a double, and the padded value
    is the integer part of three halves of [x]. *)
Lemma pad_exact x : 0 <= x -> 3 * x < 2 ^ 53 -> pad x = inr (3 * x / 2).
Proof.
  intros H0 H3. unfold pad, float_of_int.
  rewrite Z.abs_eq by exact H0.
  rewrite round53_small by lia.
  assert ((2 ^ 1024 <=? x) = false) as -> by (apply Z.leb_gt; lia).
  cbn [res_bind]. unfold mul_1_5.
  assert (Z.abs (Z.sgn x * x) = x) as -> by (destruct x; cbn; lia).
  rewrite round53_small by lia.
  assert ((2 ^ 1025 <=? 3 * x) = false) as -> by (apply Z.leb_gt; lia).
  cbn [int_of_float]. f_equal.
  assert (Z.sgn (Z.sgn x * x) * (3 * x) = 3 * x) as -> by (destruct x; cbn; lia).
  apply Z.quot_div_nonneg; lia.
Qed.

(** ** The discipline of runs, compositionally *)

Section Discipline.
Context {W : Type}.

Lemma FailStop_ret {A} (a : A) : FailStop (W:=W) (ret a).
Proof. intros w. left. simpl. split; [constructor | discriminate]. Qed.

Lemma FailStop_raise {A} (e : exn) : builtin e = true -> FailStop (W:=W) (A:=A) (raise e).
Proof. intros He w. left. simpl. split; [constructor | now intros ? [= <-]]. Qed.

Lemma FailStop_lift {A} (r : res A) : builtin_res r -> FailStop (W:=W) (lift r).
Proof.
  intros Hr w. left. unfold lift. destruct r as [e|a]; simpl.
  - split; [constructor | intros ? [= <-]; now apply Hr].
  - split; [constructor | discriminate].
Qed.

Lemma FailStop_log (l : log_entry) : FailStop (W:=W) (log l).
Proof. intros w. left. simpl. split; [constructor | discriminate]. Qed.

Lemma FailStop_ext {A} line c (inj : A -> response) (oracle : W -> res A * W) :
  FailStop (ext line c inj oracle).
Proof.
  intros w. unfold ext. destruct (oracle w) as [[e|a] w']; simpl.
  - right. exists [], (Ev line c (inl e)), e. repeat split. constructor.
  - left. split; [|discriminate]. repeat constructor.
Qed.

Lemma FailStop_bind {A B} (m : M W A) (k : A -> M W B) :
  FailStop m -> (forall a, FailStop (k a)) -> FailStop (bind m k).
Proof.
  intros Hm Hk w. unfold bind. specialize (Hm w). unfold FailStop, fail_stop in *.
  destruct (m w) as [[e|a] w1 t1 l1]; simpl in *.
  - destruct Hm as [[Ht1 Ho]|(t & ev & e' & Hc & Ht & Hev & Ho)]; simpl in *.
    + left. split; [exact Ht1 | intros e' [= <-]; now apply Ho].
    + right. exists t, ev, e'. injection Ho as ->. now repeat split.
  - destruct Hm as [[Ht1 _]|(t & ev & e & _ & _ & _ & [=])].
    specialize (Hk a w1). destruct (k a w1) as [o w2 t2 l2]; simpl in *.
    destruct Hk as [[Ht2 Ho]|(t & ev & e & -> & Ht & Hev & ->)].
    + left. split; [now apply Forall_app | exact Ho].
    + right. exists (t1 ++ t)%list, ev, e. rewrite app_assoc.
      repeat split; [now apply Forall_app | exact Hev].
Qed.

(** The handler of every [try] in the module logs and re-raises. *)
Lemma FailStop_catch_reraise {A} (m : M W A) (keep : exn -> bool)
    (entry : exn -> log_entry) :
  FailStop m -> FailStop (catch m (fun e => log_when (keep e) (entry e) ;;; raise e)).
Proof.
  intros Hm w. unfold catch, bind, log_when, raise. specialize (Hm w).
  destruct (m w) as [[e|a] w1 t1 l1]; simpl in *.
  - rewrite app_nil_r. exact Hm.
  - exact Hm.
Qed.

Lemma FailStop_if {A} (b : bool) (m1 m2 : M W A) :
  FailStop m1 -> FailStop m2 -> FailStop (if b then m1 else m2).
Proof. now destruct b. Qed.

(** What a fail-stop run tells about a call that failed: the run raised
    the same exception, and the call was the last one. *)
Lemma fail_stop_failed {A} (r : run W A) ev e :
  fail_stop r -> ev ∈ calls r -> result ev = inl e ->
  outcome r = inl e /\ exists t, calls r = (t ++ [ev])%list /\ Forall succeeded t.
Proof.
  intros [[Hall _]|(t & ev' & e' & Hc & Ht & Hev' & Ho)] Hin Hev.
  - rewrite Forall_forall in Hall. apply Hall in Hin.
    unfold succeeded, failed in Hin. now rewrite Hev in Hin.
  - rewrite Hc in Hin. apply elem_of_app in Hin as [Hin|Hin].
    + rewrite Forall_forall in Ht. apply Ht in Hin.
      unfold succeeded, failed in Hin. now rewrite Hev in Hin.
    + apply list_elem_of_singleton in Hin as ->.
      rewrite Hev' in Hev. injection Hev as ->. eauto.
Qed.

Lemma Uses_weaken {A} (m : M W A) l l' :
  Uses m l -> l `sublist_of` l' -> Uses m l'.
Proof. intros Hm Hl w. etrans; [apply Hm | exact Hl]. Qed.

Lemma Uses_ret {A} (a : A) l : Uses (W:=W) (ret a) l.
Proof. intros w. apply sublist_nil_l. Qed.

Lemma Uses_raise {A} e l : Uses (W:=W) (A:=A) (raise e) l.
Proof. intros w. apply sublist_nil_l. Qed.

Lemma Uses_lift {A} (r : res A) l : Uses (W:=W) (lift r) l.
Proof. intros w. unfold lift. destruct r; apply sublist_nil_l. Qed.

Lemma Uses_log e l : Uses (W:=W) (log e) l.
Proof. intros w. apply sublist_nil_l. Qed.

Lemma Uses_ext {A} line c (inj : A -> response) (oracle : W -> res A * W) :
  Uses (ext line c inj oracle) [line].
Proof. intros w. unfold ext. now destruct (oracle w) as [[e|a] w']. Qed.

Lemma Uses_bind {A B} (m : M W A) (k : A -> M W B) l1 l2 :
  Uses m l1 -> (forall a, Uses (k a) l2) -> Uses (bind m k) (l1 ++ l2)%list.
Proof.
  intros Hm Hk w. unfold bind. specialize (Hm w).
  destruct (m w) as [[e|a] w1 t1 l1']; simpl in *.
  - now apply sublist_inserts_r.
  - specialize (Hk a w1). destruct (k a w1) as [o w2 t2 l2']; simpl in *.
    rewrite map_app. now apply sublist_app.
Qed.

Lemma Uses_catch_reraise {A} (m : M W A) (keep : exn -> bool)
    (entry : exn -> log_entry) l :
  Uses m l -> Uses (catch m (fun e => log_when (keep e) (entry e) ;;; raise e)) l.
Proof.
  intros Hm w. unfold catch, bind, log_when, raise. specialize (Hm w).
  destruct (m w) as [[e|a] w1 t1 l1]; simpl in *.
  - now rewrite app_nil_r.
  - exact Hm.
Qed.
Lemma Every_ret {A} P (a : A) : Every (W:=W) P (ret a).
Proof. intros w. constructor. Qed.

Lemma Every_raise {A} P e : Every (W:=W) (A:=A) P (raise e).
Proof. intros w. constructor. Qed.

Lemma Every_lift {A} P (r : res A) : Every (W:=W) P (lift r).
Proof. intros w. unfold lift. destruct r; constructor. Qed.

Lemma Every_log P l : Every (W:=W) P (log l).
Proof. intros w. constructor. Qed.

Lemma Every_ext {A} P line c (inj : A -> response) (oracle : W -> res A * W) :
  (forall res, P (Ev line c res)) -> Every P (ext line c inj oracle).
Proof.
  intros HP w. unfold ext. destruct (oracle w) as [[e|a] w']; cbn; repeat constructor; apply HP.
Qed.

Lemma Every_bind {A B} P (m : M W A) (k : A -> M W B) :
  Every P m -> (forall a, Every P (k a)) -> Every P (bind m k).
Proof.
  intros Hm Hk w. unfold bind. specialize (Hm w).
  destruct (m w) as [[e|a] w1 t1 l1]; cbn in *; [exact Hm|].
  specialize (Hk a w1). destruct (k a w1) as [o w2 t2 l2]; cbn in *.
  now apply Forall_app.
Qed.

(** A local step passes on what it computed. *)
Lemma Every_bind_lift {A B} P (x : res A) (k : A -> M W B) :
  (forall a, x = inr a -> Every P (k a)) -> Every P (bind (lift x) k).
Proof.
  intros Hk w. unfold bind, lift. destruct x as [e|a]; cbn; [constructor|].
  specialize (Hk a eq_refl w). now destruct (k a w).
Qed.

Lemma Every_catch_reraise {A} P (m : M W A) (keep : exn -> bool)
    (entry : exn -> log_entry) :
  Every P m -> Every P (catch m (fun e => log_when (keep e) (entry e) ;;; raise e)).
Proof.
  intros Hm w. unfold catch, bind, log_when, raise. specialize (Hm w).
  destruct (m w) as [[e|a] w1 t1 l1]; cbn in *; [now rewrite app_nil_r | exact Hm].
Qed.




(** Counting the calls made from a line. *)
Lemma filter_length_sublist (P : nat -> bool) (l1 l2 : list nat) :
  l1 `sublist_of` l2 ->
  (List.length (List.filter P l1) <= List.length (List.filter P l2))%nat.
Proof.
  induction 1 as [|x l1 l2 _ IH|x l1 l2 _ IH]; cbn; [lia | |];
    destruct (P x); cbn; lia.
Qed.

Lemma times_map_site line (t : list event) :
  times line t = List.length (List.filter (fun s => Nat.eqb s line) (map site t)).
Proof.
  unfold times. induction t as [|ev t IH]; cbn; [reflexivity|].
  destruct (Nat.eqb (site ev) line); cbn; now rewrite IH.
Qed.
End Discipline.

(** ** The discipline of the four methods *)

Ltac fail_stop_tac :=
  repeat first
    [ apply FailStop_catch_reraise
    | apply FailStop_bind; [| intros ?]
    | apply FailStop_ext
    | apply FailStop_ret
    | apply FailStop_log
    | apply FailStop_raise; reflexivity
    | apply FailStop_lift; auto 6 with builtins
    | match goal with
      | |- FailStop (if ?b then _ else _) => destruct b
      | |- FailStop (match ?x with _ => _ end) => destruct x
      end ].

Ltac unfold_sites :=
  unfold get_instance, get_approve_transaction, get_swap, get_allowance,
    eth_gas_price, eth_get_transaction_count, send_transaction, get_token_decimals,
    parse_token_amount, eth_wait_for_transaction_receipt in *.

Section Methods.
Context {W : Type} {okx : OKXClient W} {web3 : Web3 W}.
Variable WALLET_CONFIG : gmap string pyval.
Variable NATIVE_TOKENS : gmap string pyval.

Lemma Uses_bind_ext {A B} line c (inj : A -> response) (oracle : W -> res A * W)
    (k : A -> M W B) l :
  (forall a, Uses (k a) l) -> Uses (bind (ext line c inj oracle) k) (line :: l).
Proof. intros Hk. apply (Uses_bind _ _ [line] l); [apply Uses_ext | exact Hk]. Qed.

Lemma Uses_bind_silent {A B} (m : M W A) (k : A -> M W B) l :
  Uses m [] -> (forall a, Uses (k a) l) -> Uses (bind m k) l.
Proof. intros Hm Hk. now apply (Uses_bind _ _ [] l). Qed.

Lemma FailStop_get_amount_in_wei h token amount :
  FailStop (_get_amount_in_wei NATIVE_TOKENS h token amount).
Proof. unfold _get_amount_in_wei, logged. unfold_sites. fail_stop_tac. Qed.

Lemma FailStop_check_and_approve self chain_id token owner amount :
  FailStop (check_and_approve self chain_id token owner amount).
Proof. unfold check_and_approve, logged. unfold_sites. fail_stop_tac. Qed.

Lemma FailStop_create_swap_transaction self chain_id from_token to_token amount
    user recipient slippage kwargs :
  FailStop (create_swap_transaction NATIVE_TOKENS self chain_id from_token to_token
              amount user recipient slippage kwargs).
Proof.
  unfold create_swap_transaction, logged. unfold_sites.
  apply FailStop_catch_reraise. apply FailStop_bind; [apply FailStop_ext | intros h].
  apply FailStop_bind; [apply FailStop_get_amount_in_wei | intros raw].
  fail_stop_tac.
Qed.

Lemma FailStop_execute_swap self chain_id from_token to_token amount recipient
    slippage wallet_name kwargs :
  FailStop (execute_swap WALLET_CONFIG NATIVE_TOKENS self chain_id from_token to_token
              amount recipient slippage wallet_name kwargs).
Proof.
  unfold execute_swap, logged. unfold_sites.
  apply FailStop_catch_reraise.
  do 3 (apply FailStop_bind; [fail_stop_tac | intros ?]).
  apply FailStop_bind; [apply FailStop_get_amount_in_wei | intros raw].
  apply FailStop_bind.
  { apply FailStop_if; [|apply FailStop_ret].
    apply FailStop_bind; [apply FailStop_check_and_approve | intros tx].
    fail_stop_tac. }
  intros _.
  apply FailStop_bind; [apply FailStop_create_swap_transaction | intros swap_data].
  fail_stop_tac.
Qed.

Ltac uses_tac :=
  repeat first
    [ apply Uses_catch_reraise
    | apply Uses_bind_ext; intros ?
    | apply Uses_bind_silent; [first [apply Uses_lift | apply Uses_log] | intros ?]
    | apply Uses_ret
    | apply Uses_raise
    | apply Uses_lift ].

Lemma Uses_get_amount_in_wei h token amount :
  Uses (_get_amount_in_wei NATIVE_TOKENS h token amount) amount_sites.
Proof.
  unfold _get_amount_in_wei, logged. unfold_sites.
  apply Uses_catch_reraise. apply (Uses_bind _ _ [84%nat] [86%nat]).
  - destruct (String.eqb _ _).
    + destruct (NATIVE_TOKENS !! _); [apply Uses_lift | apply Uses_raise].
    + uses_tac.
  - intros d. uses_tac.
Qed.

Lemma Uses_check_and_approve self chain_id token owner amount :
  Uses (check_and_approve self chain_id token owner amount) check_and_approve_sites.
Proof.
  unfold check_and_approve, logged, check_and_approve_sites. unfold_sites.
  uses_tac. destruct (_ <? _); uses_tac.
Qed.

Lemma Uses_create_swap_transaction self chain_id from_token to_token amount
    user recipient slippage kwargs :
  Uses (create_swap_transaction NATIVE_TOKENS self chain_id from_token to_token
          amount user recipient slippage kwargs) create_swap_sites.
Proof.
  unfold create_swap_transaction, logged, create_swap_sites. unfold_sites.
  uses_tac. apply Uses_bind; [apply Uses_get_amount_in_wei | intros raw].
  uses_tac.
Qed.

Lemma Uses_execute_swap self chain_id from_token to_token amount recipient
    slippage wallet_name kwargs :
  Uses (execute_swap WALLET_CONFIG NATIVE_TOKENS self chain_id from_token to_token
          amount recipient slippage wallet_name kwargs) execute_swap_sites.
Proof.
  unfold execute_swap, logged. unfold_sites.
  change execute_swap_sites with
    (132%nat :: amount_sites ++ (check_and_approve_sites ++ [147%nat])
       ++ create_swap_sites ++ [165; 178]%nat)%list.
  uses_tac. apply Uses_bind; [apply Uses_get_amount_in_wei | intros raw].
  apply Uses_bind.
  { destruct (negb _); [|apply Uses_ret].
    apply Uses_bind; [apply Uses_check_and_approve | intros tx].
    destruct (truthy tx); [|apply Uses_ret].
    destruct tx; uses_tac. }
  intros _. apply Uses_bind; [apply Uses_create_swap_transaction | intros swap_data].
  uses_tac.
Qed.
(** The wallet behind every call. *)
Ltac every_tac :=
  repeat first
    [ apply Every_catch_reraise
    | apply Every_bind_lift; intros ? ?
    | apply Every_bind; [| intros ?]
    | apply Every_ext; intros ?; unfold wallet_use; cbn;
      first [exact I | reflexivity | assumption]
    | apply Every_ret
    | apply Every_raise
    | apply Every_lift
    | apply Every_log
    | match goal with
      | |- Every _ (if ?b then _ else _) => destruct b
      | |- Every _ (match ?x with _ => _ end) => destruct x
      end ].

Lemma Every_wallet_get_amount_in_wei self wallet address h token amount :
  Every (wallet_use self wallet address)
    (_get_amount_in_wei NATIVE_TOKENS h token amount).
Proof. unfold _get_amount_in_wei, logged. unfold_sites. every_tac. Qed.

Lemma Every_wallet_check_and_approve self wallet address chain_id token amount :
  Every (wallet_use self wallet address)
    (check_and_approve self chain_id token address amount).
Proof. unfold check_and_approve, logged. unfold_sites. every_tac. Qed.

Lemma Every_wallet_create_swap_transaction self wallet address chain_id from_token
    to_token amount user recipient slippage kwargs :
  Every (wallet_use self wallet address)
    (create_swap_transaction NATIVE_TOKENS self chain_id from_token to_token
       amount user recipient slippage kwargs).
Proof.
  unfold create_swap_transaction, logged. unfold_sites.
  apply Every_catch_reraise. apply Every_bind; [every_tac | intros h].
  apply Every_bind; [apply Every_wallet_get_amount_in_wei | intros raw].
  every_tac.
Qed.

Lemma Every_wallet_execute_swap self chain_id from_token to_token amount recipient
    slippage wallet_name kwargs fallback address :
  WALLET_CONFIG !! "default" = Some fallback ->
  getitem (default fallback (WALLET_CONFIG !! wallet_name)) "address" = inr address ->
  Every (wallet_use self (default fallback (WALLET_CONFIG !! wallet_name)) address)
    (execute_swap WALLET_CONFIG NATIVE_TOKENS self chain_id from_token to_token
       amount recipient slippage wallet_name kwargs).
Proof.
  intros Hdefault Haddress.
  unfold execute_swap, logged, config_get. unfold_sites. rewrite Hdefault.
  apply Every_catch_reraise.
  apply Every_bind_lift. intros ? [= <-].
  apply Every_bind_lift. intros a Ha. rewrite Haddress in Ha. injection Ha as <-.
  apply Every_bind; [every_tac | intros h].
  apply Every_bind; [apply Every_wallet_get_amount_in_wei | intros raw].
  apply Every_bind.
  { destruct (negb _); [|apply Every_ret].
    apply Every_bind; [apply Every_wallet_check_and_approve | intros tx].
    every_tac. }
  intros _.
  apply Every_bind; [apply Every_wallet_create_swap_transaction | intros swap_data].
  every_tac.
Qed.
End Methods.
Ltac head_scrut x :=
  lazymatch x with
  | match ?y with _ => _ end => head_scrut y
  | (match ?y with _ => _ end) _ => head_scrut y
  | _ => x
  end.

Ltac run_unfold :=
  unfold logged in *; unfold_sites;
  unfold catch, bind, lift, ret, raise, log, log_when, ext in *.

Ltac run_simpl :=
  cbv beta iota in *; cbn [app outcome world calls logs negb truthy] in *.

Ltac run_tidy :=
  repeat match goal with
    | H : inl _ = inr _ |- _ => discriminate H
    | H : inr _ = inl _ |- _ => discriminate H
    | H : inr _ = inr _ |- _ => injection H as H
    | H : inl _ = inl _ |- _ => injection H as H
    | H : Some _ = Some _ |- _ => injection H as H
    | H : (_, _) = (_, _) |- _ => injection H as ? ?
    | H : ?x = _ |- _ => is_var x; subst x
    | H : _ = ?x |- _ => is_var x; subst x
    end.

Ltac run_step :=
  match goal with
  | |- context [match ?x with _ => _ end] =>
      let y := head_scrut x in destruct y eqn:?
  | H : context [match ?x with _ => _ end] |- _ =>
      let y := head_scrut x in destruct y eqn:?
  end.
Ltac find_ev := solve [repeat first [apply list_elem_of_here | apply list_elem_of_further]].

Ltac split_in H :=
  repeat (let E := fresh "E" in apply elem_of_cons in H as [E|H]);
  try (apply elem_of_nil in H; destruct H).

Ltac symex := run_unfold; run_simpl; repeat (run_step; run_simpl; run_tidy).

Ltac amount_shape :=
  first [ eapply amount_calls_native; eassumption
        | eapply amount_calls_token; eassumption ].

Ltac approval_shape :=
  lazymatch goal with
  | H : is_native _ = true |- _ => apply approval_skipped; exact H
  | H : (_ <? _) = false |- _ => eapply approval_sufficient; eassumption
  | H : _ <> "" |- _ => eapply approval_awaited; eassumption
  | _ => eapply approval_not_awaited; eassumption
  end.

Section Claims.
Context {W : Type} {okx : OKXClient W} {web3 : Web3 W}.
Variable WALLET_CONFIG : gmap string pyval.
Variable NATIVE_TOKENS : gmap string pyval.

Lemma execute_swap_success self chain_id from_token to_token amount recipient
  slippage wallet_name kwargs w tx :
outcome (execute_swap WALLET_CONFIG NATIVE_TOKENS self chain_id from_token to_token
           amount recipient slippage wallet_name kwargs w) = inr tx ->
exists h t1 t2 h' t3 params swap_data address nonce transaction key,
  amount_calls h from_token amount t1 /\
  approval_calls chain_id h from_token t2 /\
  amount_calls h' from_token amount t3 /\
  calls (execute_swap WALLET_CONFIG NATIVE_TOKENS self chain_id from_token to_token
           amount recipient slippage wallet_name kwargs w) =
    (Ev 132 (GetInstance chain_id) (inr (RHelper h)) :: t1 ++ t2 ++
     Ev 96 (GetInstance chain_id) (inr (RHelper h')) :: t3 ++
     [Ev 115 (GetSwap params) (inr (RJson swap_data));
      Ev 165 (GetTransactionCount h address) (inr (RInt nonce));
      Ev 178 (SendTransaction h transaction key) (inr (RStr tx))])%list.
Proof.
intros H.
unfold execute_swap, create_swap_transaction, check_and_approve,
  _get_amount_in_wei, config_get in *.
symex.
all: fold (is_native from_token) in *.
all: repeat match goal with
       | H : negb (String.eqb ?s "") = false |- _ =>
           apply negb_false_iff, String.eqb_eq in H; subst s
       | H : negb (String.eqb ?s "") = true |- _ =>
           apply negb_true_iff, String.eqb_neq in H
       | H : negb _ = _ |- _ => first [apply negb_true_iff in H | apply negb_false_iff in H]
       end.
all: do 11 eexists.
all: split; [amount_shape|]; split; [approval_shape|];
       split; [amount_shape | cbn [app]; reflexivity].
Qed.

Ltac shape_cases H :=
let Ht1 := fresh "Ht1" in
let Ht2 := fresh "Ht2" in
let Ht3 := fresh "Ht3" in
let Hc := fresh "Hcalls" in
destruct H as (? & ? & ? & ? & ? & ? & ? & ? & ? & ? & ? & Ht1 & Ht2 & Ht3 & Hc);
inversion Ht1; inversion Ht2; inversion Ht3; subst; try congruence;
rewrite Hc in *; cbn [app] in *.

(** Claim C1, as amended.  In every run of [execute_swap], a call to a
  collaborator that raises ends the run: the run raises that same exception
  (the handlers only log and re-raise), and the failed call is the last
  call, every earlier one having succeeded.  A run that returns made only
  successful calls and returns the hash that [send_transaction] answered
  at line 178, its last call.  A run that raises although no call failed
  raises an exception of the interpreter ([ValueError] for a native token
  on a chain that [NATIVE_TOKENS] does not list, or an error of a lookup or
  conversion), so "no call failed" does not by itself give a hash. *)
Theorem execute_swap_outcome self chain_id from_token to_token amount recipient
  slippage wallet_name kwargs w :
let r := execute_swap WALLET_CONFIG NATIVE_TOKENS self chain_id from_token to_token
           amount recipient slippage wallet_name kwargs w in
(forall ev e, ev ∈ calls r -> result ev = inl e ->
   outcome r = inl e /\ exists t, calls r = (t ++ [ev])%list /\ Forall succeeded t) /\
match outcome r with
| inr tx =>
    Forall succeeded (calls r) /\
    exists h transaction key,
      last (calls r) = Some (Ev 178 (SendTransaction h transaction key) (inr (RStr tx)))
| inl e =>
    (exists ev, last (calls r) = Some ev /\ result ev = inl e) \/
    (Forall succeeded (calls r) /\ builtin e = true)
end.
Proof.
intros r. pose proof (FailStop_execute_swap WALLET_CONFIG NATIVE_TOKENS self chain_id
  from_token to_token amount recipient slippage wallet_name kwargs w) as Hfs.
fold r in Hfs. split.
- intros ev e Hin Hev. now apply fail_stop_failed.
- destruct (outcome r) as [e|tx] eqn:Ho.
  + destruct Hfs as [[Hall Hb]|(t & ev & e' & Hc & Ht & Hev & He)].
    * right. split; [exact Hall | now apply Hb].
    * left. exists ev. rewrite Hc, last_snoc. split; [reflexivity | congruence].
  + split.
    * destruct Hfs as [[Hall _]|(t & ev & e' & _ & _ & _ & He)]; [exact Hall | congruence].
    * apply execute_swap_success in Ho. subst r. shape_cases Ho; eauto.
Qed.

(** Claim C2, as amended.  In a run of [execute_swap] that returns, for a
  token other than the native one: the approval is fetched (line 22) at a
  position [i], the swap is fetched (line 115) at a later position [j], and
  the swap is broadcast (line 178) at the last position [n], returning the
  hash of the run.  The only other broadcast there can be is the approval
  (line 55), strictly between [i] and [j].  The source awaits under
  [if approve_tx:]: when the approval broadcast answered a hash that is not
  the empty string, the receipt of that hash is awaited (line 147) after it
  and before [j]; when it answered the empty string, no receipt is awaited
  in the run. *)
Theorem execute_swap_order self chain_id from_token to_token amount recipient
  slippage wallet_name kwargs w tx :
let r := execute_swap WALLET_CONFIG NATIVE_TOKENS self chain_id from_token to_token
           amount recipient slippage wallet_name kwargs w in
is_native from_token = false ->
outcome r = inr tx ->
exists i j n : nat,
  (i < j < n)%nat /\ List.length (calls r) = S n /\
  (exists params approve_data,
     calls r !! i = Some (Ev 22 (GetApproveTransaction params) (inr (RJson approve_data)))) /\
  (exists params swap_data,
     calls r !! j = Some (Ev 115 (GetSwap params) (inr (RJson swap_data)))) /\
  (exists h transaction key,
     calls r !! n = Some (Ev 178 (SendTransaction h transaction key) (inr (RStr tx)))) /\
  (forall k ev, calls r !! k = Some ev -> is_send (what ev) = true ->
     k = n \/ (site ev = 55%nat /\ (i < k < j)%nat)) /\
  (forall k h transaction key a,
     calls r !! k = Some (Ev 55 (SendTransaction h transaction key) (inr (RStr a))) ->
     a <> "" ->
     exists m h' receipt,
       (k < m < j)%nat /\
       calls r !! m = Some (Ev 147 (WaitForTransactionReceipt h' a) (inr (RJson receipt)))) /\
  (forall k h transaction key,
     calls r !! k = Some (Ev 55 (SendTransaction h transaction key) (inr (RStr ""))) ->
     made 147 (calls r) = false).
Proof.
intros r Hnat Ho. apply execute_swap_success in Ho. subst r.
shape_cases Ho.
- exists 4%nat, 9%nat, 11%nat. cbn [length].
  split; [lia|]. split; [reflexivity|]. do 3 (split; [cbn; eauto|]).
  split; [|split].
  + intros k ev Hk Hsend.
    do 12 (destruct k as [|k]; [cbn in Hk; injection Hk as <-; try discriminate Hsend; auto|]).
    discriminate Hk.
  + intros k h0 t0 k0 a Hk.
    do 12 (destruct k as [|k]; [cbn in Hk; discriminate Hk|]). discriminate Hk.
  + intros; reflexivity.
- exists 4%nat, 13%nat, 15%nat. cbn [length].
  split; [lia|]. split; [reflexivity|]. do 3 (split; [cbn; eauto|]).
  split; [|split].
  + intros k ev Hk Hsend.
    do 16 (destruct k as [|k];
           [cbn in Hk; injection Hk as <-; try discriminate Hsend; auto; right; cbn; lia|]).
    discriminate Hk.
  + intros k h0 t0 k0 a Hk Ha.
    do 16 (destruct k as [|k];
           [cbn in Hk;
            first [discriminate Hk
                  | injection Hk as <- <- <- <-;
                    exists 9%nat; do 2 eexists; split; [lia | reflexivity]]|]).
    discriminate Hk.
  + intros k h0 t0 k0 Hk. exfalso.
    do 16 (destruct k as [|k];
           [cbn in Hk;
            first [discriminate Hk | injection Hk; intros; congruence]|]).
    discriminate Hk.
- exists 4%nat, 12%nat, 14%nat. cbn [length].
  split; [lia|]. split; [reflexivity|]. do 3 (split; [cbn; eauto|]).
  split; [|split].
  + intros k ev Hk Hsend.
    do 15 (destruct k as [|k];
           [cbn in Hk; injection Hk as <-; try discriminate Hsend; auto; right; cbn; lia|]).
    discriminate Hk.
  + intros k h0 t0 k0 a Hk Ha.
    do 15 (destruct k as [|k];
           [cbn in Hk;
            first [discriminate Hk | injection Hk as <- <- <- <-; congruence]|]).
    discriminate Hk.
  + intros; reflexivity.
Qed.

(** Claim C4, as amended.  A run of [execute_swap] that returns made three
  calls over HTTP or RPC when the token is the native one; otherwise it
  made seven (decimals twice, approval fetch, allowance, swap fetch, nonce,
  broadcast), three more when an approval was broadcast (gas price, nonce,
  broadcast), and one more when its receipt was awaited. *)
Theorem execute_swap_remote_calls self chain_id from_token to_token amount recipient
  slippage wallet_name kwargs w tx :
let r := execute_swap WALLET_CONFIG NATIVE_TOKENS self chain_id from_token to_token
           amount recipient slippage wallet_name kwargs w in
outcome r = inr tx ->
remote_calls (calls r) =
  if is_native from_token then 3%nat
  else (7 + (if made 55 (calls r) then 3 else 0)
          + (if made 147 (calls r) then 1 else 0))%nat.
Proof.
intros r Ho. apply execute_swap_success in Ho. subst r.
shape_cases Ho;
  match goal with H : is_native _ = _ |- _ => rewrite H end; reflexivity.
Qed.

(** Claim C3.  When [check_and_approve] returns, it has asked the allowance
  (line 31) and [int(amount)] is defined; the result is [None] exactly
  when the allowance is at least [int(amount)], and it is the hash [tx]
  exactly when the allowance is smaller and the transaction broadcast at
  line 55 was answered with [tx]; a run that returns [None] broadcast
  nothing. *)
Theorem check_and_approve_if_needed self chain_id token owner amount w o :
let r := check_and_approve self chain_id token owner amount w in
outcome r = inr o ->
exists h spender allowance required,
  Ev 31 (GetAllowance h token owner spender) (inr (RInt allowance)) ∈ calls r /\
  int_of_string amount = inr required /\
  (o = None <-> required <= allowance) /\
  (forall tx, o = Some tx <->
     allowance < required /\
     exists transaction key,
       Ev 55 (SendTransaction h transaction key) (inr (RStr tx)) ∈ calls r) /\
  (o = None -> Forall (fun ev => is_send (what ev) = false) (calls r)).
Proof.
intros r H. subst r. unfold check_and_approve in *. symex.
all: match goal with
     | H : (_ <? _) = _ |- _ => first [apply Z.ltb_lt in H | apply Z.ltb_ge in H]
     end.
all: do 4 eexists; split; [find_ev|]; split; [reflexivity|].
all: split; [split; intros; first [discriminate | lia | reflexivity]|].
all: split; [|intros; first [discriminate | repeat constructor]].
all: intros tx; split;
  [ intros Htx; first [discriminate Htx | injection Htx as <-; split; [lia | do 2 eexists; find_ev]]
  | intros [Hlt (t & k & Hin)]; first [lia | split_in Hin; congruence] ].
Qed.


(** Claim C10.  Whatever [check_and_approve] hands to [send_transaction] has
  the value [0], is addressed to the token contract, and carries as data
  the field [data] of the first item of the aggregator's approval answer,
  unchanged. *)
Theorem approval_transaction_fields self chain_id token owner amount w ev h
  transaction key :
let r := check_and_approve self chain_id token owner amount w in
ev ∈ calls r ->
what ev = SendTransaction h transaction key ->
getitem transaction "value" = inr (PInt 0) /\
getitem transaction "to" = inr (PStr token) /\
exists params approve_data calldata,
  Ev 22 (GetApproveTransaction params) (inr (RJson approve_data)) ∈ calls r /\
  res_bind (res_bind (getitem approve_data "data") (fun d => getindex d 0))
    (fun d0 => getitem d0 "data") = inr calldata /\
  getitem transaction "data" = inr calldata.
Proof.
intros r Hin Hwhat. subst r. unfold check_and_approve in *. symex.
all: split_in Hin; subst; cbn in Hwhat; try discriminate Hwhat.
all: injection Hwhat as <- <- <-.
all: split; [reflexivity|]; split; [reflexivity|].
all: do 3 eexists; split; [find_ev|].
all: match goal with
     | H : res_bind (getitem _ "data") _ = inr _ |- _ => rewrite H
     end; cbn [res_bind]; split; [eassumption | reflexivity].
Qed.


Ltac split_pad :=
repeat match goal with
  | H : res_bind ?x pad = inr _ |- _ =>
      let E := fresh "Ebase" in
      destruct x eqn:E; cbn [res_bind] in H; [discriminate H|]
  end.

(** What [execute_swap] hands to [send_transaction] at line 178: the wallet
  it was signed for, and where each padded field comes from. *)
Lemma execute_swap_broadcast self chain_id from_token to_token amount recipient
  slippage wallet_name kwargs w ev h transaction key :
let r := execute_swap WALLET_CONFIG NATIVE_TOKENS self chain_id from_token to_token
           amount recipient slippage wallet_name kwargs w in
ev ∈ calls r ->
site ev = 178%nat ->
what ev = SendTransaction h transaction key ->
exists fallback address nonce params swap_data tx_info base_price base_gas
       gas_price gas,
  WALLET_CONFIG !! "default" = Some fallback /\
  getitem (default fallback (WALLET_CONFIG !! wallet_name)) "address" = inr address /\
  getitem (default fallback (WALLET_CONFIG !! wallet_name)) "private_key" = inr key /\
  Ev 165 (GetTransactionCount h address) (inr (RInt nonce)) ∈ calls r /\
  getitem transaction "nonce" = inr (PInt nonce) /\
  Ev 115 (GetSwap params) (inr (RJson swap_data)) ∈ calls r /\
  res_bind (getitem swap_data "data")
    (fun d => res_bind (getindex d 0) (fun d0 => getitem d0 "tx")) = inr tx_info /\
  res_bind (getitem tx_info "gasPrice") py_int = inr base_price /\
  res_bind (getitem tx_info "gas") py_int = inr base_gas /\
  pad base_price = inr gas_price /\
  pad base_gas = inr gas /\
  getitem transaction "gasPrice" = inr (PInt gas_price) /\
  getitem transaction "gas" = inr (PInt gas).
Proof.
intros r Hin Hsite Hwhat. subst r.
unfold execute_swap, create_swap_transaction, check_and_approve,
  _get_amount_in_wei, config_get in *.
symex.
all: split_in Hin; subst; cbn in Hsite; try discriminate Hsite.
all: injection Hwhat as <- <- <-.
all: split_pad.
all: do 10 eexists; split; [reflexivity|].
all: split; [eassumption|]; split; [eassumption|].
all: split; [find_ev|]; split; [reflexivity|]; split; [find_ev|].
all: split; [eassumption|].
all: split; [eassumption|]; split; [eassumption|].
all: split; [eassumption|]; split; [eassumption|].
all: split; reflexivity.
Qed.


(** Claim C5, as amended.  [int(x * 1.5)] is the integer part of three halves
  of [x] for [0 <= x] with [3 * x < 2^53] (the product is then exact in a
  double).  The approval transaction has [gasPrice = int(p * 1.5)] for the
  gas price [p] the node reported at line 42 and
  [gas = int(int(gasLimit) * 1.5)] for the [gasLimit] of the approval
  answer; the swap transaction (line 178) has
  [gasPrice = int(int(tx["gasPrice"]) * 1.5)] and
  [gas = int(int(tx["gas"]) * 1.5)] for the [tx] of the swap answer. *)
Theorem gas_padding :
(forall x, 0 <= x -> 3 * x < 2 ^ 53 -> pad x = inr (3 * x / 2)) /\
(forall self chain_id token owner amount w ev h transaction key,
   let r := check_and_approve self chain_id token owner amount w in
   ev ∈ calls r ->
   what ev = SendTransaction h transaction key ->
   exists params approve_data node_gas_price gas_limit gas_price gas,
     Ev 22 (GetApproveTransaction params) (inr (RJson approve_data)) ∈ calls r /\
     Ev 42 (GasPrice h) (inr (RInt node_gas_price)) ∈ calls r /\
     res_bind (res_bind (res_bind (getitem approve_data "data") (fun d => getindex d 0))
                 (fun d0 => getitem d0 "gasLimit")) py_int = inr gas_limit /\
     pad node_gas_price = inr gas_price /\
     pad gas_limit = inr gas /\
     getitem transaction "gasPrice" = inr (PInt gas_price) /\
     getitem transaction "gas" = inr (PInt gas)) /\
(forall self chain_id from_token to_token amount recipient slippage wallet_name
        kwargs w ev h transaction key,
   let r := execute_swap WALLET_CONFIG NATIVE_TOKENS self chain_id from_token to_token
              amount recipient slippage wallet_name kwargs w in
   ev ∈ calls r ->
   site ev = 178%nat ->
   what ev = SendTransaction h transaction key ->
   exists params swap_data tx_info base_price base_gas gas_price gas,
     Ev 115 (GetSwap params) (inr (RJson swap_data)) ∈ calls r /\
     res_bind (getitem swap_data "data")
       (fun d => res_bind (getindex d 0) (fun d0 => getitem d0 "tx")) = inr tx_info /\
     res_bind (getitem tx_info "gasPrice") py_int = inr base_price /\
     res_bind (getitem tx_info "gas") py_int = inr base_gas /\
     pad base_price = inr gas_price /\
     pad base_gas = inr gas /\
     getitem transaction "gasPrice" = inr (PInt gas_price) /\
     getitem transaction "gas" = inr (PInt gas)).
Proof.
split; [exact pad_exact|]. split.
- intros self chain_id token owner amount w ev h transaction key r Hin Hwhat.
  subst r. unfold check_and_approve in *. symex.
  all: split_in Hin; subst; cbn in Hwhat; try discriminate Hwhat.
  all: injection Hwhat as <- <- <-.
  all: split_pad.
  all: do 6 eexists; split; [find_ev|]; split; [find_ev|].
  all: match goal with
       | H : res_bind (getitem _ "data") _ = inr _ |- _ => rewrite H
       end; cbn [res_bind].
  all: split; [eassumption|]; split; [eassumption|]; split; [eassumption|].
  all: split; reflexivity.
- intros self chain_id from_token to_token amount recipient slippage wallet_name
    kwargs w ev h transaction key r Hin Hsite Hwhat.
  destruct (execute_swap_broadcast self chain_id from_token to_token amount
              recipient slippage wallet_name kwargs w ev h transaction key
              Hin Hsite Hwhat)
    as (fallback & address & nonce & params & swap_data & tx_info & base_price
        & base_gas & gas_price & gas & _ & _ & _ & _ & _ & Hrest).
  exists params, swap_data, tx_info, base_price, base_gas, gas_price, gas.
  exact Hrest.
Qed.


(** Claim C6.  [_get_amount_in_wei] on the native token (compared in lower
  case): when the chain of the helper is missing from [NATIVE_TOKENS] it
  raises [ValueError] without calling anything; otherwise it converts with
  the configured decimals of the chain.  On any other token it first asks
  the token contract for its decimals (line 84) and converts with them.
  Converting is one call of [parse_token_amount(amount, decimals)] (line
  86), whose answer is returned in string form. *)
Theorem get_amount_in_wei_decimals h token amount w :
let r := _get_amount_in_wei NATIVE_TOKENS h token amount w in
(is_native token = true -> NATIVE_TOKENS !! chain_id_of h = None ->
   outcome r = inl (ValueError ("Unsupported chain ID: " ++ chain_id_of h)) /\
   world r = w /\ calls r = []) /\
(forall entry decimals,
   is_native token = true ->
   NATIVE_TOKENS !! chain_id_of h = Some entry ->
   getitem entry "decimals" = inr decimals ->
   converts h amount decimals w (outcome r) (world r) (calls r)) /\
(is_native token = false ->
   match web3_get_token_decimals h token w with
   | (inl e, w1) =>
       outcome r = inl e /\ world r = w1 /\
       calls r = [Ev 84 (GetTokenDecimals h token) (inl e)]
   | (inr d, w1) =>
       exists t,
         calls r = Ev 84 (GetTokenDecimals h token) (inr (RInt d)) :: t /\
         converts h amount (PInt d) w1 (outcome r) (world r) t
   end).
Proof.
intros r. subst r. unfold is_native, _get_amount_in_wei, converts.
split; [|split].
- intros Hn Hc. rewrite Hn, Hc. symex. repeat split.
- intros entry decimals Hn Hc Hd. rewrite Hn, Hc. symex; repeat split.
- intros Hn. rewrite Hn. symex; [repeat split | eexists; repeat split ..].
Qed.

(** Claim C9, as amended.  The request that [create_swap_transaction] sends
  to the aggregator is a dictionary; it has the key [swapReceiverAddress]
  exactly when [recipient_address] is true (a non-empty string) or the
  caller passed that key among the keyword arguments; and when
  [recipient_address] is true the value of the key is
  [recipient_address]. *)
Theorem swap_receiver_address self chain_id from_token to_token amount user
  recipient slippage kwargs w ev request :
let r := create_swap_transaction NATIVE_TOKENS self chain_id from_token to_token
           amount user recipient slippage kwargs w in
ev ∈ calls r ->
what ev = GetSwap request ->
exists params,
  request = PDict params /\
  dict_has params "swapReceiverAddress" =
    truthy recipient || dict_has kwargs "swapReceiverAddress" /\
  (truthy recipient = true ->
     exists address,
       recipient = Some address /\
       dict_get params "swapReceiverAddress" = Some (PStr address)).
Proof.
intros r Hin Hwhat. subst r.
assert (Hparams : forall raw,
  let params := swap_params chain_id from_token to_token raw user recipient
                  slippage kwargs in
  dict_has params "swapReceiverAddress" =
    truthy recipient || dict_has kwargs "swapReceiverAddress" /\
  (truthy recipient = true ->
     exists address,
       recipient = Some address /\
       dict_get params "swapReceiverAddress" = Some (PStr address))).
{ intros raw. unfold swap_params. destruct recipient as [a|]; cbn [truthy].
  - destruct (negb (String.eqb a "")) eqn:Ea.
    + split; [now rewrite dict_has_set | intros _; exists a].
      split; [reflexivity | apply dict_get_set_eq].
    + split; [now rewrite dict_has_update | discriminate].
  - split; [now rewrite dict_has_update | discriminate]. }
unfold create_swap_transaction, _get_amount_in_wei in *. symex.
all: split_in Hin; subst; cbn in Hwhat; try discriminate Hwhat.
all: injection Hwhat as <-; eexists; split; [reflexivity | apply Hparams].
Qed.



(** In the text of [execute_swap] only the two call sites of
  [_get_amount_in_wei] occur twice. *)
Lemma execute_swap_sites_bound line :
(List.length (List.filter (fun s => Nat.eqb s line) execute_swap_sites) <=
   if Nat.eqb line 84 || Nat.eqb line 86 then 2 else 1)%nat.
Proof.
do 179 (destruct line as [|line]; [vm_compute; lia|]).
vm_compute. lia.
Qed.

(** Claim C7, as amended.  Every run of [check_and_approve],
  [create_swap_transaction] and [execute_swap] stops at the first call that
  fails, and executes its call sites in the order of the text (the methods
  it calls being inlined where they are called).  In a run of the first two
  no call site is executed twice.  In a run of [execute_swap],
  [_get_amount_in_wei] is run twice (once directly, once inside
  [create_swap_transaction]): its two call sites, lines 84 and 86, are
  executed at most twice, every other one at most once. *)
Theorem no_retry :
(forall self chain_id token owner amount w,
   let r := check_and_approve self chain_id token owner amount w in
   stops_at_failure r /\ NoDup (map site (calls r)) /\
   map site (calls r) `sublist_of` check_and_approve_sites) /\
(forall self chain_id from_token to_token amount user recipient slippage kwargs w,
   let r := create_swap_transaction NATIVE_TOKENS self chain_id from_token to_token
              amount user recipient slippage kwargs w in
   stops_at_failure r /\ NoDup (map site (calls r)) /\
   map site (calls r) `sublist_of` create_swap_sites) /\
(forall self chain_id from_token to_token amount recipient slippage wallet_name
        kwargs w,
   let r := execute_swap WALLET_CONFIG NATIVE_TOKENS self chain_id from_token to_token
              amount recipient slippage wallet_name kwargs w in
   stops_at_failure r /\
   map site (calls r) `sublist_of` execute_swap_sites /\
   forall line,
     (times line (calls r) <=
        if Nat.eqb line 84 || Nat.eqb line 86 then 2 else 1)%nat).
Proof.
split; [|split].
- intros self chain_id token owner amount w r. split; [|split].
  + intros ev e Hin Hev.
    eapply fail_stop_failed; [apply FailStop_check_and_approve | exact Hin | exact Hev].
  + eapply sublist_NoDup; [|apply Uses_check_and_approve].
    unfold check_and_approve_sites. clear.
    repeat first
      [ apply NoDup_nil_2
      | apply NoDup_cons_2;
        [rewrite ?not_elem_of_cons; repeat split;
         first [discriminate | apply not_elem_of_nil]|] ].
  + apply Uses_check_and_approve.
- intros self chain_id from_token to_token amount user recipient slippage kwargs w r.
  split; [|split].
  + intros ev e Hin Hev.
    eapply fail_stop_failed;
      [apply FailStop_create_swap_transaction | exact Hin | exact Hev].
  + eapply sublist_NoDup; [|apply Uses_create_swap_transaction].
    unfold create_swap_sites, amount_sites. cbn [app]. clear.
    repeat first
      [ apply NoDup_nil_2
      | apply NoDup_cons_2;
        [rewrite ?not_elem_of_cons; repeat split;
         first [discriminate | apply not_elem_of_nil]|] ].
  + apply Uses_create_swap_transaction.
- intros self chain_id from_token to_token amount recipient slippage wallet_name
    kwargs w r.
  pose proof (Uses_execute_swap WALLET_CONFIG NATIVE_TOKENS self chain_id from_token
    to_token amount recipient slippage wallet_name kwargs w) as Hsites.
  fold r in Hsites. split; [|split; [exact Hsites|]].
  + intros ev e Hin Hev.
    eapply fail_stop_failed; [apply FailStop_execute_swap | exact Hin | exact Hev].
  + intros line. rewrite times_map_site.
    etrans; [apply filter_length_sublist, Hsites|].
    apply execute_swap_sites_bound.
Qed.

End Claims.

(** ** The claims on concrete runs *)

Lemma execute_swap_outcome_witness :
  outcome (demo_execute_swap offline_script "1" demo_token NATIVE None "default" [])
    = inl (ExternalError "HTTPError") /\
  exists h transaction key,
    last (calls (demo_execute_swap demo_script "1" demo_token NATIVE None "default" []))
      = Some (Ev 178 (SendTransaction h transaction key) (inr (RStr "0xbbb"))).
Proof.
  split.
  - refine (proj1 (proj1 (execute_swap_outcome
       (okx := script_okx offline_script) (web3 := script_web3 offline_script)
       demo_wallets demo_natives demo_service "1" demo_token NATIVE "1.5" None "0.03"
       "default" [] 0%nat)
       (Ev 115 (GetSwap _) (inl (ExternalError "HTTPError")))
       (ExternalError "HTTPError") _ eq_refl)).
    vm_compute. find_ev.
  - pose proof (proj2 (execute_swap_outcome
       (okx := script_okx demo_script) (web3 := script_web3 demo_script)
       demo_wallets demo_natives demo_service "1" demo_token NATIVE "1.5" None "0.03"
       "default" [] 0%nat)) as H.
    vm_compute in H. exact (proj2 H).
Defined.

(** A native token on a chain that [NATIVE_TOKENS] does not list: no call
    to a collaborator fails, and no transaction hash is returned. *)
Lemma execute_swap_outcome_counterexample :
  let r := demo_execute_swap demo_script "5" NATIVE demo_token None "default" [] in
  Forall succeeded (calls r) /\
  outcome r = inl (ValueError "Unsupported chain ID: 5") /\
  ~ exists tx, outcome r = inr tx.
Proof.
  vm_compute. split; [repeat constructor|]. split; [reflexivity|].
  intros [tx H]. discriminate H.
Qed.

Lemma execute_swap_order_witness :
  exists i j n : nat,
    (i < j < n)%nat /\
    List.length (calls (demo_execute_swap demo_script "1" demo_token NATIVE None
                          "default" [])) = S n.
Proof.
  destruct (execute_swap_order
    (okx := script_okx demo_script) (web3 := script_web3 demo_script)
    demo_wallets demo_natives demo_service "1" demo_token NATIVE "1.5" None "0.03"
    "default" [] 0%nat "0xbbb") as (i & j & n & Hlt & Hlen & _).
  - reflexivity.
  - vm_compute. reflexivity.
  - exists i, j, n. split; [exact Hlt | exact Hlen].
Defined.

(** The node answers the approval broadcast with an empty string: the run
    returns, the approval was broadcast (line 55), and no receipt is
    awaited (line 147). *)
Lemma execute_swap_order_counterexample :
  let r := demo_execute_swap unhashed_script "1" demo_token NATIVE None "default" [] in
  is_native demo_token = false /\
  outcome r = inr "0xbbb" /\
  (exists h transaction key,
     Ev 55 (SendTransaction h transaction key) (inr (RStr "")) ∈ calls r) /\
  Forall (fun ev => site ev <> 147%nat) (calls r).
Proof.
  cbv zeta. split; [reflexivity|]. split; [vm_compute; reflexivity|].
  set (t := calls _). vm_compute in t. subst t.
  split; [do 3 eexists; find_ev|].
  repeat constructor; discriminate.
Qed.

Lemma check_and_approve_if_needed_witness :
  exists h spender allowance required,
    Ev 31 (GetAllowance h demo_token (PStr "0xA11ce") spender) (inr (RInt allowance))
      ∈ calls (demo_check_and_approve demo_script) /\
    int_of_string "1500000" = inr required /\
    allowance < required.
Proof.
  destruct (check_and_approve_if_needed
    (okx := script_okx demo_script) (web3 := script_web3 demo_script)
    demo_service "1" demo_token (PStr "0xA11ce") "1500000" 0%nat (Some "0xaaa"))
    as (h & spender & allowance & required & Hin & Hreq & _ & Hsome & _).
  - vm_compute. reflexivity.
  - exists h, spender, allowance, required.
    split; [exact Hin|]. split; [exact Hreq|].
    exact (proj1 (proj1 (Hsome "0xaaa") eq_refl)).
Defined.

Lemma execute_swap_remote_calls_witness :
  remote_calls (calls (demo_execute_swap demo_script "1" demo_token NATIVE None
                         "default" [])) = 11%nat /\
  remote_calls (calls (demo_execute_swap demo_script "1" NATIVE demo_token None
                         "default" [])) = 3%nat.
Proof.
  unfold demo_execute_swap. split.
  - rewrite (execute_swap_remote_calls
      (okx := script_okx demo_script) (web3 := script_web3 demo_script)
      demo_wallets demo_natives demo_service "1" demo_token NATIVE "1.5" None "0.03"
      "default" [] 0%nat "0xbbb"); [|vm_compute; reflexivity].
    vm_compute. reflexivity.
  - rewrite (execute_swap_remote_calls
      (okx := script_okx demo_script) (web3 := script_web3 demo_script)
      demo_wallets demo_natives demo_service "1" NATIVE demo_token "1.5" None "0.03"
      "default" [] 0%nat "0xaaa"); [|vm_compute; reflexivity].
    vm_compute. reflexivity.
Defined.

(** An ERC20 token whose allowance suffices: the run returns a hash after
    seven calls over HTTP or RPC, not three. *)
Lemma execute_swap_remote_calls_counterexample :
  let r := demo_execute_swap approved_script "1" demo_token NATIVE None "default" [] in
  outcome r = inr "0xaaa" /\
  remote_calls (calls r) = 7%nat /\
  remote_calls (calls r) <> 3%nat.
Proof. vm_compute. repeat split. discriminate. Qed.

Lemma gas_padding_witness :
  pad 20000000000 = inr 30000000000 /\
  exists params approve_data node_gas_price gas_limit gas_price gas,
    Ev 22 (GetApproveTransaction params) (inr (RJson approve_data))
      ∈ calls (demo_check_and_approve demo_script) /\
    pad node_gas_price = inr gas_price /\
    pad gas_limit = inr gas.
Proof.
  pose proof (gas_padding (okx := script_okx demo_script)
                (web3 := script_web3 demo_script) demo_wallets demo_natives)
    as (Hpad & Happrove & _).
  split.
  - apply (Hpad 20000000000); lia.
  - set (transaction :=
           PDict [("nonce", PInt 0); ("to", PStr demo_token);
                  ("gasPrice", PInt 30000000000); ("gas", PInt 105000);
                  ("data", PStr "0x095ea7b3"); ("value", PInt 0);
                  ("chainId", PInt 1)]).
    destruct (Happrove demo_service "1" demo_token (PStr "0xA11ce") "1500000" 0%nat
      (Ev 55 (SendTransaction (MkHelper "1" 0) transaction (PStr "k0"))
          (inr (RStr "0xaaa")))
      (MkHelper "1" 0) transaction (PStr "k0"))
      as (params & approve_data & node_gas_price & gas_limit & gas_price & gas
          & H22 & _ & _ & Hgp & Hgas & _).
    + vm_compute. find_ev.
    + reflexivity.
    + exists params, approve_data, node_gas_price, gas_limit, gas_price, gas.
      repeat split; assumption.
Defined.

(** A node gas price of 3002399751580333 wei: the approval is signed with
    the gas price 4503599627370500, one more than the integer part of three
    halves of the node's price. *)
Lemma gas_padding_counterexample :
  let r := demo_check_and_approve pricey_script in
  exists h transaction key,
    Ev 42 (GasPrice h) (inr (RInt 3002399751580333)) ∈ calls r /\
    Ev 55 (SendTransaction h transaction key) (inr (RStr "0xaaa")) ∈ calls r /\
    getitem transaction "gasPrice" = inr (PInt 4503599627370500) /\
    3 * 3002399751580333 / 2 = 4503599627370499.
Proof.
  set (t := calls (demo_check_and_approve pricey_script)). vm_compute in t. subst t.
  cbv zeta. do 3 eexists. split; [find_ev|]. split; [find_ev|].
  split; reflexivity.
Qed.

Lemma get_amount_in_wei_decimals_witness :
  let h := MkHelper "1" 0 in
  converts (web3 := script_web3 demo_script) h "1.5" (PInt 18) 0%nat
    (inr "1500000") 0%nat
    [Ev 86 (ParseTokenAmount h "1.5" (PInt 18)) (inr (RInt 1500000))] /\
  outcome (_get_amount_in_wei (web3 := script_web3 demo_script) demo_natives
             (MkHelper "5" 0) NATIVE "1.5" 0%nat)
    = inl (ValueError "Unsupported chain ID: 5").
Proof.
  split.
  - exact (proj1 (proj2 (get_amount_in_wei_decimals
      (web3 := script_web3 demo_script)
      demo_natives (MkHelper "1" 0) NATIVE "1.5" 0%nat))
      (PDict [("symbol", PStr "ETH"); ("decimals", PInt 18)]) (PInt 18)
      eq_refl eq_refl eq_refl).
  - exact (proj1 (proj1 (get_amount_in_wei_decimals
      (web3 := script_web3 demo_script)
      demo_natives (MkHelper "5" 0) NATIVE "1.5" 0%nat) eq_refl eq_refl)).
Defined.

Lemma no_retry_witness :
  let r := demo_execute_swap offline_script "1" demo_token NATIVE None "default" [] in
  stops_at_failure r /\ map site (calls r) `sublist_of` execute_swap_sites.
Proof.
  pose proof (proj2 (proj2 (no_retry (okx := script_okx offline_script)
    (web3 := script_web3 offline_script) demo_wallets demo_natives))
    demo_service "1" demo_token NATIVE "1.5" None "0.03" "default" [] 0%nat)
    as (Hstop & Hsites & _).
  split; [exact Hstop | exact Hsites].
Defined.

(** One successful [execute_swap] on an ERC20 token: the call at line 84
    (the decimals of the token) is executed twice, and so is the call at
    line 86. *)
Lemma no_retry_counterexample :
  let r := demo_execute_swap demo_script "1" demo_token NATIVE None "default" [] in
  outcome r = inr "0xbbb" /\
  times 84 (calls r) = 2%nat /\
  times 86 (calls r) = 2%nat /\
  ~ NoDup (map site (calls r)).
Proof.
  cbv zeta. split; [vm_compute; reflexivity|].
  split; [vm_compute; reflexivity|]. split; [vm_compute; reflexivity|].
  set (t := map site _). vm_compute in t. subst t. intros H.
  apply NoDup_cons in H as [_ H]. apply NoDup_cons in H as [H84 _].
  apply H84. find_ev.
Qed.


Lemma swap_receiver_address_witness :
  exists params,
    dict_has params "swapReceiverAddress" = true /\
    dict_get params "swapReceiverAddress" = Some (PStr "0xBob").
Proof.
  destruct (swap_receiver_address
    (okx := script_okx demo_script) (web3 := script_web3 demo_script)
    demo_natives demo_service "1" demo_token NATIVE "1.5" (PStr "0xA11ce")
    (Some "0xBob") "0.03" [("swapReceiverAddress", PStr "0xEve")] 0%nat
    (Ev 115 (GetSwap (PDict
       (swap_params "1" demo_token NATIVE "1500000" (PStr "0xA11ce") (Some "0xBob")
          "0.03" [("swapReceiverAddress", PStr "0xEve")])))
       (inr (RJson demo_swap)))
    (PDict
       (swap_params "1" demo_token NATIVE "1500000" (PStr "0xA11ce") (Some "0xBob")
          "0.03" [("swapReceiverAddress", PStr "0xEve")])))
    as (params & _ & Hhas & Hvalue).
  - vm_compute. find_ev.
  - reflexivity.
  - exists params. split; [exact Hhas|].
    destruct (Hvalue eq_refl) as (a & Ha & Hget). injection Ha as <-. exact Hget.
Defined.

(** No recipient, but the caller passes [swapReceiverAddress] among the
    keyword arguments: the request has the key. *)
Lemma swap_receiver_address_counterexample :
  let recipient : option string := None in
  let r := demo_create_swap_transaction demo_script recipient
             [("swapReceiverAddress", PStr "0xEve")] in
  truthy recipient = false /\
  exists params,
    Ev 115 (GetSwap (PDict params)) (inr (RJson demo_swap)) ∈ calls r /\
    dict_get params "swapReceiverAddress" = Some (PStr "0xEve").
Proof.
  cbv zeta. split; [reflexivity|].
  set (t := calls _). vm_compute in t. subst t.
  eexists. split; [find_ev | reflexivity].
Qed.

Lemma approval_transaction_fields_witness :
  exists transaction,
    getitem transaction "value" = inr (PInt 0) /\
    getitem transaction "to" = inr (PStr demo_token) /\
    getitem transaction "data" = inr (PStr "0x095ea7b3").
Proof.
  set (transaction :=
         PDict [("nonce", PInt 0); ("to", PStr demo_token);
                ("gasPrice", PInt 30000000000); ("gas", PInt 105000);
                ("data", PStr "0x095ea7b3"); ("value", PInt 0);
                ("chainId", PInt 1)]).
  destruct (approval_transaction_fields
    (okx := script_okx demo_script) (web3 := script_web3 demo_script)
    demo_service "1" demo_token (PStr "0xA11ce") "1500000" 0%nat
    (Ev 55 (SendTransaction (MkHelper "1" 0) transaction (PStr "k0"))
        (inr (RStr "0xaaa")))
    (MkHelper "1" 0) transaction (PStr "k0"))
    as (Hvalue & Hto & _).
  - vm_compute. find_ev.
  - reflexivity.
  - exists transaction. split; [exact Hvalue|]. split; [exact Hto | reflexivity].
Defined.

(** * Further properties of the module *)

(** ** [int(str(n))] and the padding *)

Lemma parse_digits_string_of_uint d acc :
  parse_digits (NilEmpty.string_of_uint d) acc true = Some (uint_value d acc).
Proof.
  revert acc. induction d; intros acc; cbn; try apply IHd. reflexivity.
Qed.

Lemma uint_value_of_uint_acc d (acc : positive) :
  uint_value d (Z.pos acc) = Z.pos (Pos.of_uint_acc d acc).
Proof.
  revert acc. induction d; intros acc; cbn [uint_value Pos.of_uint_acc];
    try reflexivity.
  all: match goal with
       | |- uint_value _ ?z = Z.pos (Pos.of_uint_acc _ ?p) =>
           replace z with (Z.pos p) by lia; apply IHd
       end.
Qed.

Lemma uint_value_of_uint d : uint_value d 0 = Z.of_N (Pos.of_uint d).
Proof.
  induction d; cbn [uint_value Pos.of_uint]; try reflexivity; try exact IHd.
  all: cbn [Z.mul Z.add Z.of_N]; apply uint_value_of_uint_acc.
Qed.

Ltac eval_chars :=
  repeat (progress (
    repeat match goal with
      | |- context [is_space ?c] =>
          let v := eval vm_compute in (is_space c) in change (is_space c) with v
      | |- context [digit_value ?c] =>
          let v := eval vm_compute in (digit_value c) in change (digit_value c) with v
      | |- context [Ascii.eqb ?a ?b] =>
          let v := eval vm_compute in (Ascii.eqb a b) in change (Ascii.eqb a b) with v
      end;
    cbv beta iota; cbn [parse_digits lstrip])).

Lemma int_of_string_of_pos p :
  int_of_string (NilZero.string_of_uint (Pos.to_uint p)) = inr (Z.pos p) /\
  parse_digits (NilZero.string_of_uint (Pos.to_uint p)) 0 false = Some (Z.pos p).
Proof.
  pose proof (DecimalPos.Unsigned.of_to p) as Hof.
  pose proof (DecimalPos.Unsigned.to_uint_nonnil p) as Hnil.
  pose proof (uint_value_of_uint (Pos.to_uint p)) as Hval.
  rewrite Hof in Hval. cbn [Z.of_N] in Hval.
  unfold int_of_string, NilZero.string_of_uint.
  destruct (Pos.to_uint p) as [|d|d|d|d|d|d|d|d|d|d]; [contradiction|..];
    cbn [NilEmpty.string_of_uint uint_value] in *; eval_chars;
    rewrite !parse_digits_string_of_uint, Hval; split; reflexivity.
Qed.

Lemma int_of_string_py_str z : int_of_string (py_str z) = inr z.
Proof.
  unfold py_str. destruct z as [|p|p]; [reflexivity| |].
  - apply int_of_string_of_pos.
  - cbn [Z.to_int NilZero.string_of_int].
    destruct (int_of_string_of_pos p) as [_ Hp].
    unfold int_of_string. eval_chars. rewrite Hp. reflexivity.
Qed.

(** X1.  [int(str(n)) == n]: the amount that [_get_amount_in_wei] returns as
    a string (line 86) is read back by [check_and_approve] (line 38) as the
    very integer that [parse_token_amount] answered, and reading it does not
    raise.  The interpreter refuses to convert integers of more than 4300
    digits, a limit that [py_str] and [int_of_string] leave out: the
    statement is for the integers below it. *)
Theorem int_of_str_round_trip z :
  Z.abs z < 10 ^ 4300 -> int_of_string (py_str z) = inr z.
Proof.
  intros _. apply int_of_string_py_str.
Qed.

Lemma round53_bounds m :
  0 <= m ->
  (2 ^ 53 - 1) * m <= 2 ^ 53 * round53 m <= (2 ^ 53 + 1) * m.
Proof.
  intros Hm. unfold round53.
  destruct (Z.log2 m + 1 <=? 53) eqn:E; [lia|].
  apply Z.leb_gt in E.
  assert (Hpos : 0 < m).
  { destruct (Z.eq_dec m 0) as [->|]; [cbn in E; lia | lia]. }
  set (sh := Z.log2 m + 1 - 53) in *.
  assert (Hsh : 0 < sh) by lia.
  pose proof (Z.log2_spec m Hpos) as [Hlo _].
  replace (Z.log2 m) with (52 + sh) in Hlo by lia.
  rewrite Z.pow_add_r in Hlo by lia.
  rewrite Z.shiftr_div_pow2, Z.land_ones, Z.shiftl_1_l by lia.
  assert (HP : 2 ^ sh = 2 * 2 ^ (sh - 1)).
  { replace sh with (Z.succ (sh - 1)) at 1 by lia. apply Z.pow_succ_r. lia. }
  assert (HH : 0 < 2 ^ (sh - 1)) by (apply Z.pow_pos_nonneg; lia).
  pose proof (Z.div_mod m (2 ^ sh) ltac:(lia)) as Hdm.
  pose proof (Z.mod_pos_bound m (2 ^ sh) ltac:(lia)) as Hr.
  set (P := 2 ^ sh) in *. set (H := 2 ^ (sh - 1)) in *.
  set (q := m / P) in *. set (r := m mod P) in *.
  destruct ((H <? r) || ((r =? H) && Z.odd q)) eqn:Eup;
    rewrite Z.shiftl_mul_pow2 by lia; fold P.
  - assert (H <= r).
    { apply orb_true_iff in Eup as [Hlt|Heq]; [apply Z.ltb_lt in Hlt; lia|].
      apply andb_true_iff in Heq as [Heq _]. apply Z.eqb_eq in Heq. lia. }
    lia.
  - apply orb_false_iff in Eup as [Hlt _]. apply Z.ltb_ge in Hlt. lia.
Qed.

(** X2.  For a base value [x >= 0], [int(x * 1.5)] (lines 48-49 and 170-171)
    is defined whenever [x < 2^1023], and whenever it is defined it lies
    between [x] and [2 * x]: the padding never lowers a gas value and never
    more than doubles it, whatever the rounding of the doubles. *)
Theorem pad_bounds x :
  0 <= x ->
  (x < 2 ^ 1023 -> exists y, pad x = inr y) /\
  (forall y, pad x = inr y -> x <= y <= 2 * x).
Proof.
  intros Hx.
  destruct (Z.eq_dec x 0) as [->|Hx0].
  { split; [intros _; exists 0; reflexivity|].
    intros y Hy. vm_compute in Hy. injection Hy as <-. lia. }
  pose proof (round53_bounds x Hx) as Hf.
  assert (Hfpos : 0 < round53 x) by lia.
  pose proof (round53_bounds (3 * round53 x) ltac:(lia)) as Hh.
  unfold pad, float_of_int.
  rewrite (Z.abs_eq x) by lia. rewrite (Z.sgn_pos x) by lia. rewrite Z.mul_1_l.
  set (f := round53 x) in *.
  assert (Hmul : mul_1_5 f =
            if 2 ^ 1025 <=? round53 (3 * f) then FInf false
            else FHalves (round53 (3 * f))).
  { unfold mul_1_5. rewrite (Z.abs_eq f), (Z.sgn_pos f), Z.mul_1_l by lia.
    assert ((f <? 0) = false) as -> by (apply Z.ltb_ge; lia). reflexivity. }
  set (h := round53 (3 * f)) in *.
  split.
  - intros Hsmall.
    assert ((2 ^ 1024 <=? f) = false) as -> by (apply Z.leb_gt; lia).
    cbn [res_bind]. rewrite Hmul.
    assert ((2 ^ 1025 <=? h) = false) as -> by (apply Z.leb_gt; lia).
    cbn [int_of_float]. eauto.
  - intros y. destruct (2 ^ 1024 <=? f); cbn [res_bind]; [discriminate|].
    rewrite Hmul. destruct (2 ^ 1025 <=? h); cbn [int_of_float]; [discriminate|].
    intros [= <-]. rewrite Z.quot_div_nonneg by lia.
    pose proof (Z.div_mod h 2 ltac:(lia)) as Hd.
    pose proof (Z.mod_pos_bound h 2 ltac:(lia)) as Hm2.
    lia.
Qed.

(** ** Dictionaries with keyword arguments *)

Lemma dict_get_set d k v k' :
  dict_get (dict_set d k v) k' = if String.eqb k k' then Some v else dict_get d k'.
Proof.
  induction d as [|[k0 v0] d IH]; cbn; [reflexivity|].
  destruct (String.eqb k0 k) eqn:E; cbn.
  - apply String.eqb_eq in E as ->. now destruct (String.eqb k k').
  - rewrite IH.
    destruct (String.eqb k0 k') eqn:E0, (String.eqb k k') eqn:E1; try reflexivity.
    apply String.eqb_eq in E0, E1. subst. now rewrite String.eqb_refl in E.
Qed.

Lemma dict_get_app d1 d2 k :
  dict_get (d1 ++ d2) k =
    match dict_get d1 k with Some v => Some v | None => dict_get d2 k end.
Proof.
  induction d1 as [|[k0 v0] d1 IH]; cbn; [reflexivity|].
  now destruct (String.eqb k0 k).
Qed.

(** [{**a, **b}[k]]: the last item of [b] under [k], else [a[k]]. *)
Lemma dict_get_update a b k :
  dict_get (dict_update a b) k =
    match dict_get (rev b) k with Some v => Some v | None => dict_get a k end.
Proof.
  unfold dict_update. revert a.
  induction b as [|[k1 v1] b IH]; intros a; cbn [fold_left fst snd rev].
  - reflexivity.
  - rewrite IH, dict_get_app, dict_get_set. cbn.
    destruct (dict_get (rev b) k); [reflexivity|].
    now destruct (String.eqb k1 k).
Qed.

Lemma dict_get_elem_of d k v : dict_get d k = Some v -> k ∈ map fst d.
Proof.
  induction d as [|[k0 v0] d IH]; cbn; [discriminate|].
  destruct (String.eqb k0 k) eqn:E.
  - apply String.eqb_eq in E as ->. intros _. apply list_elem_of_here.
  - intros H. apply list_elem_of_further, IH, H.
Qed.

(** With every name once, the order of the keyword arguments does not
    matter. *)
Lemma dict_get_rev d k : NoDup (map fst d) -> dict_get (rev d) k = dict_get d k.
Proof.
  induction d as [|[k0 v0] d IH]; intros Hnd; [reflexivity|].
  cbn [map fst] in Hnd. apply NoDup_cons in Hnd as [Hk0 Hnd].
  cbn [rev]. rewrite dict_get_app, (IH Hnd). cbn.
  destruct (dict_get d k) as [v|] eqn:Hd; [|reflexivity].
  destruct (String.eqb k0 k) eqn:E; [|reflexivity].
  apply String.eqb_eq in E as ->. exfalso. apply Hk0.
  eapply dict_get_elem_of, Hd.
Qed.

(** A name of a parameter is no keyword argument. *)
Lemma dict_get_parameter parameters kwargs k :
  keyword_arguments parameters kwargs -> k ∈ parameters -> dict_get kwargs k = None.
Proof.
  intros [_ Hall] Hk. destruct (dict_get kwargs k) as [v|] eqn:Hd; [|reflexivity].
  exfalso. apply dict_get_elem_of in Hd. apply list_elem_of_fmap in Hd as ([k' v'] & -> & Hin).
  rewrite Forall_forall in Hall. exact (Hall _ Hin Hk).
Qed.

(** X3.  The request of lines 101-112, for keyword arguments that a call of
    [create_swap_transaction] can hold.  Under a key the request has the
    keyword argument of that name if there is one, else the base field of
    that name; only [swapReceiverAddress] with a true [recipient_address] is
    out of the reach of the keyword arguments.  So a keyword argument
    replaces [chainId], [fromTokenAddress], [toTokenAddress] or
    [userWalletAddress]; but [amount] and [slippage] are names of
    parameters, never keyword arguments, and the request always has the
    converted amount and the slippage of the call. *)
Theorem swap_params_fields chain_id from_token to_token raw_amount user recipient
    slippage kwargs :
  let params := swap_params chain_id from_token to_token raw_amount user recipient
                  slippage kwargs in
  let base := base_params chain_id from_token to_token raw_amount user slippage in
  keyword_arguments create_swap_parameters kwargs ->
  dict_get params "amount" = Some (PStr raw_amount) /\
  dict_get params "slippage" = Some (PStr slippage) /\
  forall key,
    key <> "swapReceiverAddress" \/ truthy recipient = false ->
    dict_get params key =
      match dict_get kwargs key with
      | Some v => Some v
      | None => dict_get base key
      end.
Proof.
  intros params base Hkw.
  assert (Hget : forall key,
    key <> "swapReceiverAddress" \/ truthy recipient = false ->
    dict_get params key =
      match dict_get kwargs key with
      | Some v => Some v
      | None => dict_get base key
      end).
  { intros key Hkey. subst params base. unfold swap_params, base_params.
    rewrite <- (dict_get_rev kwargs key (proj1 Hkw)).
    destruct recipient as [a|]; [|apply dict_get_update].
    destruct (truthy (Some a)) eqn:Et; [|apply dict_get_update].
    destruct Hkey as [Hne|]; [|discriminate].
    rewrite dict_get_set.
    destruct (String.eqb "swapReceiverAddress" key) eqn:E; [|apply dict_get_update].
    apply String.eqb_eq in E. congruence. }
  split; [|split; [|exact Hget]].
  - rewrite Hget by (left; discriminate).
    rewrite (dict_get_parameter create_swap_parameters kwargs "amount" Hkw);
      [reflexivity|]. unfold create_swap_parameters. set_solver.
  - rewrite Hget by (left; discriminate).
    rewrite (dict_get_parameter create_swap_parameters kwargs "slippage" Hkw);
      [reflexivity|]. unfold create_swap_parameters. set_solver.
Qed.

(** ** Logs, call sites and wallets *)

(** A [KeyboardInterrupt] out of the aggregator's client during the swap
    request: the run raises it, and no error line is written; an
    [HTTPError] at the same place is logged by both methods on its way. *)
Example interrupt_not_logged :
  let r := demo_execute_swap interrupted_script "1" NATIVE demo_token None "default" [] in
  let r' := demo_execute_swap offline_script "1" NATIVE demo_token None "default" [] in
  outcome r = inl (ExternalBaseException "KeyboardInterrupt") /\
  List.filter is_error (logs r) = [] /\
  List.filter is_error (logs r') =
    [LogError "Failed to create swap transaction: {}" [LExn (ExternalError "HTTPError")];
     LogError "Failed to execute swap: {}" [LExn (ExternalError "HTTPError")]].
Proof. vm_compute. repeat split. Qed.

Section MoreDiscipline.
Context {W : Type}.

Lemma Quiet_ret {A} (a : A) : Quiet (W:=W) (ret a).
Proof. intros w. constructor. Qed.

Lemma Quiet_raise {A} e : Quiet (W:=W) (A:=A) (raise e).
Proof. intros w _. constructor. Qed.

Lemma Quiet_lift {A} (r : res A) : Quiet (W:=W) (lift r).
Proof. intros w. unfold lift. destruct r; cbn; [intros _|]; constructor. Qed.

Lemma Quiet_log l : is_error l = false -> Quiet (W:=W) (log l).
Proof. intros Hl w. cbn. now repeat constructor. Qed.

Lemma Quiet_ext {A} line c (inj : A -> response) (oracle : W -> res A * W) :
  Quiet (ext line c inj oracle).
Proof.
  intros w. unfold ext. destruct (oracle w) as [[e|a] w']; cbn; [intros _|]; constructor.
Qed.

Lemma Quiet_bind {A B} (m : M W A) (k : A -> M W B) :
  Quiet m -> (forall a, Quiet (k a)) -> Quiet (bind m k).
Proof.
  intros Hm Hk w. unfold bind. specialize (Hm w).
  destruct (m w) as [[e|a] w1 t1 l1]; cbn in *; [exact Hm|].
  specialize (Hk a w1). destruct (k a w1) as [[e|b] w2 t2 l2]; cbn in *.
  - intros He. apply Forall_app. split; [exact Hm | exact (Hk He)].
  - now apply Forall_app.
Qed.

Lemma Quiet_catch_reraise {A} (m : M W A) (entry : exn -> log_entry) :
  Quiet m -> Quiet (catch m (fun e => log_when (is_exception e) (entry e) ;;; raise e)).
Proof.
  intros Hm w. unfold catch, bind, log_when, raise. specialize (Hm w).
  destruct (m w) as [[e|a] w1 t1 l1]; cbn in *; [|exact Hm].
  intros He. rewrite He. cbn. rewrite app_nil_r. exact (Hm He).
Qed.

(** What the handler of a [try] leaves in the log when the body raises. *)
Lemma logged_raises {A} template args (m : M W A) w e :
  outcome (logged template args m w) = inl e ->
  outcome (m w) = inl e /\
  logs (logged template args m w) =
    (logs (m w) ++
       if is_exception e then [LogError template (args ++ [LExn e])] else [])%list.
Proof.
  unfold logged, catch, bind, log_when, raise.
  destruct (m w) as [[e'|a] w1 t1 l1]; cbn; [|discriminate].
  intros [= ->]. rewrite app_nil_r. split; reflexivity.
Qed.
End MoreDiscipline.

Ltac quiet_tac :=
  repeat first
    [ apply Quiet_catch_reraise
    | apply Quiet_bind; [| intros ?]
    | apply Quiet_ext
    | apply Quiet_ret
    | apply Quiet_raise
    | apply Quiet_lift
    | apply Quiet_log; reflexivity
    | match goal with
      | |- Quiet (if ?b then _ else _) => destruct b
      | |- Quiet (match ?x with _ => _ end) => destruct x
      end ].

Ltac sites_tac :=
  repeat first
    [ apply Uses_catch_reraise
    | apply Uses_bind_ext; intros ?
    | apply Uses_bind_silent; [first [apply Uses_lift | apply Uses_log] | intros ?]
    | apply Uses_ret
    | apply Uses_raise
    | apply Uses_lift ].

Section Extras.
Context {W : Type} {okx : OKXClient W} {web3 : Web3 W}.
Variable WALLET_CONFIG : gmap string pyval.
Variable NATIVE_TOKENS : gmap string pyval.

Lemma Quiet_get_amount_in_wei h token amount :
  Quiet (_get_amount_in_wei NATIVE_TOKENS h token amount).
Proof. unfold _get_amount_in_wei, logged. unfold_sites. quiet_tac. Qed.

Lemma Quiet_check_and_approve self chain_id token owner amount :
  Quiet (check_and_approve self chain_id token owner amount).
Proof. unfold check_and_approve, logged. unfold_sites. quiet_tac. Qed.

Lemma Quiet_create_swap_transaction self chain_id from_token to_token amount
    user recipient slippage kwargs :
  Quiet (create_swap_transaction NATIVE_TOKENS self chain_id from_token to_token
           amount user recipient slippage kwargs).
Proof.
  unfold create_swap_transaction, logged. unfold_sites.
  apply Quiet_catch_reraise. apply Quiet_bind; [apply Quiet_ext | intros h].
  apply Quiet_bind; [apply Quiet_get_amount_in_wei | intros raw].
  quiet_tac.
Qed.

Lemma Quiet_execute_swap self chain_id from_token to_token amount recipient
    slippage wallet_name kwargs :
  Quiet (execute_swap WALLET_CONFIG NATIVE_TOKENS self chain_id from_token to_token
           amount recipient slippage wallet_name kwargs).
Proof.
  unfold execute_swap, logged. unfold_sites.
  apply Quiet_catch_reraise.
  do 3 (apply Quiet_bind; [quiet_tac | intros ?]).
  apply Quiet_bind; [apply Quiet_get_amount_in_wei | intros raw].
  apply Quiet_bind.
  { destruct (negb _); [|apply Quiet_ret].
    apply Quiet_bind; [apply Quiet_check_and_approve | intros tx].
    quiet_tac. }
  intros _.
  apply Quiet_bind; [apply Quiet_create_swap_transaction | intros swap_data].
  quiet_tac.
Qed.

(** X4.  Each of the four methods wraps its body in [try ... except
    Exception as e: logger.error(...); raise].  A run that returns has
    written no error line.  A run that raises an instance [e] of
    [Exception] has written, as its last line, the error line of that
    method with [e].  A run that raises anything else (a
    [KeyboardInterrupt] or [SystemExit] out of a collaborator) has written
    no error line either: no [except] clause of the module takes it. *)
Theorem error_logging :
  (forall h token amount w,
     let r := _get_amount_in_wei NATIVE_TOKENS h token amount w in
     match outcome r with
     | inr _ => Forall (fun l => is_error l = false) (logs r)
     | inl e =>
         if is_exception e then
           last (logs r) =
             Some (LogError "Failed to convert amount {} for token {}: {}"
                     [LStr amount; LStr token; LExn e])
         else Forall (fun l => is_error l = false) (logs r)
     end) /\
  (forall self chain_id token owner amount w,
     let r := check_and_approve self chain_id token owner amount w in
     match outcome r with
     | inr _ => Forall (fun l => is_error l = false) (logs r)
     | inl e =>
         if is_exception e then
           last (logs r) = Some (LogError "Failed to check and approve: {}" [LExn e])
         else Forall (fun l => is_error l = false) (logs r)
     end) /\
  (forall self chain_id from_token to_token amount user recipient slippage kwargs w,
     let r := create_swap_transaction NATIVE_TOKENS self chain_id from_token to_token
                amount user recipient slippage kwargs w in
     match outcome r with
     | inr _ => Forall (fun l => is_error l = false) (logs r)
     | inl e =>
         if is_exception e then
           last (logs r) =
             Some (LogError "Failed to create swap transaction: {}" [LExn e])
         else Forall (fun l => is_error l = false) (logs r)
     end) /\
  (forall self chain_id from_token to_token amount recipient slippage wallet_name
          kwargs w,
     let r := execute_swap WALLET_CONFIG NATIVE_TOKENS self chain_id from_token to_token
                amount recipient slippage wallet_name kwargs w in
     match outcome r with
     | inr _ => Forall (fun l => is_error l = false) (logs r)
     | inl e =>
         if is_exception e then
           last (logs r) = Some (LogError "Failed to execute swap: {}" [LExn e])
         else Forall (fun l => is_error l = false) (logs r)
     end).
Proof.
  repeat split; intros.
  - pose proof (Quiet_get_amount_in_wei h token amount w) as Hq. fold r in Hq.
    destruct (outcome r) as [e|s] eqn:Ho; [|exact Hq].
    destruct (is_exception e) eqn:He; [|exact (Hq eq_refl)].
    subst r. unfold _get_amount_in_wei in *.
    apply logged_raises in Ho as [_ ->]. rewrite He. apply last_snoc.
  - pose proof (Quiet_check_and_approve self chain_id token owner amount w) as Hq.
    fold r in Hq. destruct (outcome r) as [e|s] eqn:Ho; [|exact Hq].
    destruct (is_exception e) eqn:He; [|exact (Hq eq_refl)].
    subst r. unfold check_and_approve in *.
    apply logged_raises in Ho as [_ ->]. rewrite He. apply last_snoc.
  - pose proof (Quiet_create_swap_transaction self chain_id from_token to_token amount
                  user recipient slippage kwargs w) as Hq.
    fold r in Hq. destruct (outcome r) as [e|s] eqn:Ho; [|exact Hq].
    destruct (is_exception e) eqn:He; [|exact (Hq eq_refl)].
    subst r. unfold create_swap_transaction in *.
    apply logged_raises in Ho as [_ ->]. rewrite He. apply last_snoc.
  - pose proof (Quiet_execute_swap self chain_id from_token to_token amount
                  recipient slippage wallet_name kwargs w) as Hq.
    fold r in Hq. destruct (outcome r) as [e|s] eqn:Ho; [|exact Hq].
    destruct (is_exception e) eqn:He; [|exact (Hq eq_refl)].
    subst r. unfold execute_swap in *.
    apply logged_raises in Ho as [_ ->]. rewrite He. apply last_snoc.
Qed.

Lemma Uses_native_get_amount_in_wei h token amount :
  is_native token = true ->
  Uses (_get_amount_in_wei NATIVE_TOKENS h token amount) [86%nat].
Proof.
  intros Hn. unfold is_native in Hn.
  unfold _get_amount_in_wei, logged. unfold_sites. rewrite Hn.
  apply Uses_catch_reraise. apply Uses_bind_silent.
  - destruct (NATIVE_TOKENS !! _); [apply Uses_lift | apply Uses_raise].
  - intros d. sites_tac.
Qed.

(** X5.  For the native token, every run of [execute_swap], returning or
    not, executes call sites taken in order from lines 132, 86, 96, 86, 115,
    165, 178: the approval is never fetched, no allowance, gas price or token
    decimals asked, no approval broadcast or awaited. *)
Theorem execute_swap_native_calls self chain_id from_token to_token amount recipient
    slippage wallet_name kwargs w :
  is_native from_token = true ->
  map site (calls (execute_swap WALLET_CONFIG NATIVE_TOKENS self chain_id from_token
                     to_token amount recipient slippage wallet_name kwargs w))
    `sublist_of` native_sites.
Proof.
  intros Hn. revert w.
  change (Uses (execute_swap WALLET_CONFIG NATIVE_TOKENS self chain_id from_token
                  to_token amount recipient slippage wallet_name kwargs) native_sites).
  pose proof Hn as Hn'. unfold is_native in Hn'.
  unfold execute_swap, create_swap_transaction, logged. unfold_sites. rewrite Hn'.
  cbn [negb].
  change native_sites with (132%nat :: [86%nat] ++ [] ++ (96%nat :: [86%nat] ++ [115%nat])
                              ++ [165; 178]%nat)%list.
  sites_tac. apply Uses_bind; [now apply Uses_native_get_amount_in_wei | intros raw].
  apply Uses_bind; [apply Uses_ret | intros _].
  apply Uses_bind.
  { apply Uses_catch_reraise. sites_tac.
    apply Uses_bind; [now apply Uses_native_get_amount_in_wei | intros raw'].
    sites_tac. }
  intros swap_data. sites_tac.
Qed.

(** X6.  [_get_amount_in_wei] stops at the first call that fails and executes
    its two call sites (lines 84 and 86) at most once each, in that order. *)
Theorem get_amount_in_wei_no_retry h token amount w :
  let r := _get_amount_in_wei NATIVE_TOKENS h token amount w in
  stops_at_failure r /\ NoDup (map site (calls r)) /\
  map site (calls r) `sublist_of` amount_sites.
Proof.
  intros r. split; [|split].
  - intros ev e Hin Hev.
    eapply fail_stop_failed; [apply FailStop_get_amount_in_wei | exact Hin | exact Hev].
  - eapply sublist_NoDup; [|apply Uses_get_amount_in_wei].
    unfold amount_sites. clear.
    repeat first
      [ apply NoDup_nil_2
      | apply NoDup_cons_2;
        [rewrite ?not_elem_of_cons; repeat split;
         first [discriminate | apply not_elem_of_nil]|] ].
  - apply Uses_get_amount_in_wei.
Qed.

(** X7.  In every run of [execute_swap], for any [wallet_name]: with [wallet]
    the configured wallet of that name, or the default one when the name is
    missing (line 129), allowances and nonces are asked for the address of
    [wallet] and the swap is signed with the key of [wallet]; the approval
    (line 55) is signed with the key of the service's own wallet
    configuration, the one [__init__] read, whatever [wallet_name] is. *)
Theorem execute_swap_wallet self chain_id from_token to_token amount recipient
    slippage wallet_name kwargs w fallback wallet address ev :
  let r := execute_swap WALLET_CONFIG NATIVE_TOKENS self chain_id from_token to_token
             amount recipient slippage wallet_name kwargs w in
  WALLET_CONFIG !! "default" = Some fallback ->
  default fallback (WALLET_CONFIG !! wallet_name) = wallet ->
  getitem wallet "address" = inr address ->
  ev ∈ calls r ->
  (forall h a, what ev = GetTransactionCount h a -> a = address) /\
  (forall h token owner spender,
     what ev = GetAllowance h token owner spender -> owner = address) /\
  (forall h transaction key,
     what ev = SendTransaction h transaction key ->
     (site ev = 55%nat /\ getitem (wallet_config self) "private_key" = inr key) \/
     (site ev <> 55%nat /\ getitem wallet "private_key" = inr key)).
Proof.
  intros r Hdefault Hwallet Haddress Hin. subst wallet.
  pose proof (Every_wallet_execute_swap WALLET_CONFIG NATIVE_TOKENS self chain_id
    from_token to_token amount recipient slippage wallet_name kwargs fallback
    address Hdefault Haddress w) as Hall.
  rewrite Forall_forall in Hall. specialize (Hall ev Hin).
  unfold wallet_use in Hall. repeat split.
  - intros h a Hw. rewrite Hw in Hall. exact Hall.
  - intros h token owner spender Hw. rewrite Hw in Hall. exact Hall.
  - intros h transaction key Hw. rewrite Hw in Hall.
    destruct (Nat.eqb (site ev) 55) eqn:E.
    + left. apply Nat.eqb_eq in E. now split.
    + right. apply Nat.eqb_neq in E. now split.
Qed.

(** X8.  Without a ["default"] entry in [WALLET_CONFIG], [__init__] raises
    [KeyError('default')], and so does [execute_swap], before any call to a
    collaborator and for every [wallet_name], a configured one included: the
    fallback of line 129 is evaluated first.  The run leaves the world as it
    was and logs the error once. *)
Theorem execute_swap_without_default self chain_id from_token to_token amount
    recipient slippage wallet_name kwargs w :
  WALLET_CONFIG !! "default" = None ->
  init WALLET_CONFIG = inl (KeyError (PStr "default")) /\
  execute_swap WALLET_CONFIG NATIVE_TOKENS self chain_id from_token to_token amount
    recipient slippage wallet_name kwargs w =
  Run (inl (KeyError (PStr "default"))) w []
    [LogError "Failed to execute swap: {}" [LExn (KeyError (PStr "default"))]].
Proof.
  intros Hd. unfold init, execute_swap, config_get. rewrite Hd. split; reflexivity.
Qed.

(** X9.  What [check_and_approve] asks: the approval request has exactly the
    fields [chainId], [tokenContractAddress] and [approveAmount], holding its
    arguments (lines 22-26); the allowance is asked for the given token and
    owner, and for the spender that the approval answer names in
    [data[0]["spenderAddress"]] (lines 28-35). *)
Theorem check_and_approve_requests self chain_id token owner amount w ev :
  let r := check_and_approve self chain_id token owner amount w in
  ev ∈ calls r ->
  (forall params, what ev = GetApproveTransaction params ->
     params = PDict [("chainId", PStr chain_id);
                     ("tokenContractAddress", PStr token);
                     ("approveAmount", PStr amount)]) /\
  (forall h token' owner' spender,
     what ev = GetAllowance h token' owner' spender ->
     token' = token /\ owner' = owner /\
     exists params approve_data,
       Ev 22 (GetApproveTransaction params) (inr (RJson approve_data)) ∈ calls r /\
       res_bind (getitem approve_data "data")
         (fun d => res_bind (getindex d 0) (fun d0 => getitem d0 "spenderAddress"))
         = inr spender).
Proof.
  intros r Hin. subst r. unfold check_and_approve in *. symex.
  all: split_in Hin; subst; cbn [what]; split; intros; try discriminate.
  all: match goal with
       | H : GetApproveTransaction _ = GetApproveTransaction _ |- _ =>
           injection H as <-; reflexivity
       | H : GetAllowance _ _ _ _ = GetAllowance _ _ _ _ |- _ =>
           injection H as <- <- <- <-;
           split; [reflexivity|]; split; [reflexivity|];
           do 2 eexists; split; [find_ev | eassumption]
       end.
Qed.

(** X10.  The transaction [check_and_approve] hands to [send_transaction]
    (lines 45-55) is a dictionary of exactly the seven fields [nonce], [to],
    [gasPrice], [gas], [data], [value], [chainId], in this order; the nonce is
    the one asked for the owner at line 43, [chainId] is [int(chain_id)], the
    key is [self.wallet_config["private_key"]], and the broadcast is the
    last call of the run. *)
Theorem check_and_approve_transaction self chain_id token owner amount w ev h transaction key :
  let r := check_and_approve self chain_id token owner amount w in
  ev ∈ calls r ->
  what ev = SendTransaction h transaction key ->
  exists nonce gas_price gas data chain,
    transaction = PDict [("nonce", PInt nonce);
                         ("to", PStr token);
                         ("gasPrice", PInt gas_price);
                         ("gas", PInt gas);
                         ("data", data);
                         ("value", PInt 0);
                         ("chainId", PInt chain)] /\
    Ev 43 (GetTransactionCount h owner) (inr (RInt nonce)) ∈ calls r /\
    int_of_string chain_id = inr chain /\
    getitem (wallet_config self) "private_key" = inr key /\
    site ev = 55%nat /\
    last (calls r) = Some ev.
Proof.
  intros r Hin Hwhat. subst r. unfold check_and_approve in *. symex.
  all: split_in Hin; subst; cbn in Hwhat; try discriminate Hwhat.
  all: injection Hwhat as <- <- <-.
  all: do 5 eexists; split; [reflexivity|]; split; [find_ev|].
  all: split; [reflexivity|]; split; [first [assumption | reflexivity]|]; split; reflexivity.
Qed.


(** X12.  The request [create_swap_transaction] sends (line 115) is built
    from the string form of what [parse_token_amount] answered in this very
    run, together with the arguments; it is sent from line 115 and is the
    last call of the run. *)
Theorem swap_request self chain_id from_token to_token amount user recipient
    slippage kwargs w ev request :
  let r := create_swap_transaction NATIVE_TOKENS self chain_id from_token to_token
             amount user recipient slippage kwargs w in
  ev ∈ calls r ->
  what ev = GetSwap request ->
  exists h decimals wei,
    Ev 86 (ParseTokenAmount h amount decimals) (inr (RInt wei)) ∈ calls r /\
    request = PDict (swap_params chain_id from_token to_token (py_str wei) user
                       recipient slippage kwargs) /\
    site ev = 115%nat /\
    last (calls r) = Some ev.
Proof.
  intros r Hin Hwhat. subst r.
  unfold create_swap_transaction, _get_amount_in_wei in *. symex.
  all: split_in Hin; subst; cbn in Hwhat; try discriminate Hwhat.
  all: injection Hwhat as <-.
  all: do 3 eexists; split; [find_ev|]; split; [reflexivity|]; split; reflexivity.
Qed.

(** What a run of [execute_swap] that returns asked for and sent. *)
Lemma execute_swap_success_details self chain_id from_token to_token amount
    recipient slippage wallet_name kwargs w tx :
  let r := execute_swap WALLET_CONFIG NATIVE_TOKENS self chain_id from_token to_token
             amount recipient slippage wallet_name kwargs w in
  outcome r = inr tx ->
  exists h decimals wei h' decimals' wei' j swap_data tx_info address nonce to
         gas_price gas data value chain key,
    List.length (calls r) = S (S (S (S j))) /\
    calls r !! (if is_native from_token then 1 else 2)%nat =
      Some (Ev 86 (ParseTokenAmount h amount decimals) (inr (RInt wei))) /\
    (is_native from_token = false ->
       exists approve_data h2 spender allowance,
         calls r !! 4%nat =
           Some (Ev 22 (GetApproveTransaction
                          (PDict [("chainId", PStr chain_id);
                                  ("tokenContractAddress", PStr from_token);
                                  ("approveAmount", PStr (py_str wei))]))
                   (inr (RJson approve_data))) /\
         calls r !! 5%nat =
           Some (Ev 31 (GetAllowance h2 from_token address spender)
                   (inr (RInt allowance))) /\
         (made 55 (calls r) = true <-> allowance < wei)) /\
    calls r !! j = Some (Ev 86 (ParseTokenAmount h' amount decimals') (inr (RInt wei'))) /\
    calls r !! S j =
      Some (Ev 115 (GetSwap (PDict (swap_params chain_id from_token to_token
                                      (py_str wei') address recipient slippage kwargs)))
              (inr (RJson swap_data))) /\
    calls r !! S (S j) = Some (Ev 165 (GetTransactionCount h address) (inr (RInt nonce))) /\
    calls r !! S (S (S j)) =
      Some (Ev 178 (SendTransaction h
                      (PDict [("nonce", PInt nonce);
                              ("to", to);
                              ("gasPrice", PInt gas_price);
                              ("gas", PInt gas);
                              ("data", data);
                              ("value", PInt value);
                              ("chainId", PInt chain)])
                      key)
              (inr (RStr tx))) /\
    res_bind (getitem swap_data "data")
      (fun d => res_bind (getindex d 0) (fun d0 => getitem d0 "tx")) = inr tx_info /\
    getitem tx_info "to" = inr to /\
    getitem tx_info "data" = inr data /\
    res_bind (getitem tx_info "value") py_int = inr value /\
    int_of_string chain_id = inr chain.
Proof.
  intros r H. subst r.
  match goal with
  | H : outcome ?run = _ |- ?G =>
      let P := fresh "P" in
      pattern (calls run);
      match goal with |- ?F _ => set (P := F) end
  end.
  unfold execute_swap, create_swap_transaction, check_and_approve,
    _get_amount_in_wei, config_get in H |- *.
  symex.
  all: fold (is_native from_token) in *.
  all: repeat match goal with
         | H : int_of_string (py_str _) = inr _ |- _ =>
             rewrite int_of_string_py_str in H; injection H as <-
         end.
  all: repeat match goal with
         | H : (_ <? _) = true |- _ => apply Z.ltb_lt in H
         | H : (_ <? _) = false |- _ => apply Z.ltb_ge in H
         end.
  all: subst P; cbv beta;
       match goal with H : is_native _ = _ |- _ => rewrite H end.
  all: do 18 eexists; split; [reflexivity|]; split; [reflexivity|].
  all: split;
       [ first
           [ discriminate
           | intros _; do 4 eexists; split; [reflexivity|]; split; [reflexivity|];
             match goal with
             | |- made 55 ?l = true <-> _ =>
                 let v := eval vm_compute in (made 55 l) in
                 change (made 55 l) with v
             end;
             split; intros; first [lia | discriminate | reflexivity] ]
       | ].
  all: repeat (split; [first [reflexivity | eassumption]|]).
  all: first [reflexivity | eassumption].
Qed.

(** X13.  A run of [execute_swap] that returns converts the amount twice.
    The first answer [wei] (line 135) is the [approveAmount] of the approval
    request, and an approval is broadcast exactly when the allowance is below
    [wei]; the second answer [wei'] (line 99, inside
    [create_swap_transaction]) is the amount of the swap request, which is
    sent right after it, for the address the allowance was asked for. *)
Theorem execute_swap_amounts self chain_id from_token to_token amount recipient
    slippage wallet_name kwargs w tx :
  let r := execute_swap WALLET_CONFIG NATIVE_TOKENS self chain_id from_token to_token
             amount recipient slippage wallet_name kwargs w in
  outcome r = inr tx ->
  exists h decimals wei h' decimals' wei' j swap_data address,
    calls r !! (if is_native from_token then 1 else 2)%nat =
      Some (Ev 86 (ParseTokenAmount h amount decimals) (inr (RInt wei))) /\
    (is_native from_token = false ->
       exists approve_data h2 spender allowance,
         calls r !! 4%nat =
           Some (Ev 22 (GetApproveTransaction
                          (PDict [("chainId", PStr chain_id);
                                  ("tokenContractAddress", PStr from_token);
                                  ("approveAmount", PStr (py_str wei))]))
                   (inr (RJson approve_data))) /\
         calls r !! 5%nat =
           Some (Ev 31 (GetAllowance h2 from_token address spender)
                   (inr (RInt allowance))) /\
         (made 55 (calls r) = true <-> allowance < wei)) /\
    calls r !! j = Some (Ev 86 (ParseTokenAmount h' amount decimals') (inr (RInt wei'))) /\
    calls r !! S j =
      Some (Ev 115 (GetSwap (PDict (swap_params chain_id from_token to_token
                                      (py_str wei') address recipient slippage kwargs)))
              (inr (RJson swap_data))).
Proof.
  intros r Ho.
  destruct (execute_swap_success_details self chain_id from_token to_token amount
              recipient slippage wallet_name kwargs w tx Ho)
    as (h & decimals & wei & h' & decimals' & wei' & j & swap_data & tx_info & address
        & nonce & to & gas_price & gas & data & value & chain & key
        & _ & H1 & Happrove & H2 & Hswap & _).
  exists h, decimals, wei, h', decimals', wei', j, swap_data, address.
  repeat split; assumption.
Qed.

(** X14.  The last call of a run of [execute_swap] that returns is the
    broadcast of line 178, of a dictionary of exactly the seven fields
    [nonce], [to], [gasPrice], [gas], [data], [value], [chainId]: [to] and
    [data] are those of [data[0]["tx"]] of the swap answer, [value] is
    [int(tx["value"])], [chainId] is [int(chain_id)], and the nonce is the
    one asked at line 165. *)
Theorem execute_swap_transaction self chain_id from_token to_token amount recipient
    slippage wallet_name kwargs w tx :
  let r := execute_swap WALLET_CONFIG NATIVE_TOKENS self chain_id from_token to_token
             amount recipient slippage wallet_name kwargs w in
  outcome r = inr tx ->
  exists h params swap_data tx_info address nonce to gas_price gas data value chain key,
    last (calls r) =
      Some (Ev 178 (SendTransaction h
                      (PDict [("nonce", PInt nonce);
                              ("to", to);
                              ("gasPrice", PInt gas_price);
                              ("gas", PInt gas);
                              ("data", data);
                              ("value", PInt value);
                              ("chainId", PInt chain)])
                      key)
              (inr (RStr tx))) /\
    Ev 115 (GetSwap params) (inr (RJson swap_data)) ∈ calls r /\
    Ev 165 (GetTransactionCount h address) (inr (RInt nonce)) ∈ calls r /\
    res_bind (getitem swap_data "data")
      (fun d => res_bind (getindex d 0) (fun d0 => getitem d0 "tx")) = inr tx_info /\
    getitem tx_info "to" = inr to /\
    getitem tx_info "data" = inr data /\
    res_bind (getitem tx_info "value") py_int = inr value /\
    int_of_string chain_id = inr chain.
Proof.
  intros r Ho. subst r.
  destruct (execute_swap_success_details self chain_id from_token to_token amount
              recipient slippage wallet_name kwargs w tx Ho)
    as (h & decimals & wei & h' & decimals' & wei' & j & swap_data & tx_info & address
        & nonce & to & gas_price & gas & data & value & chain & key
        & Hlen & _ & _ & _ & Hswap & Hnonce & Hsend & Hinfo & Hto & Hdata & Hvalue
        & Hchain).
  exists h, (PDict (swap_params chain_id from_token to_token (py_str wei') address
                      recipient slippage kwargs)),
    swap_data, tx_info, address, nonce, to, gas_price, gas, data, value, chain, key.
  split.
  { rewrite last_lookup, Hlen. exact Hsend. }
  split; [eapply list_elem_of_lookup_2; exact Hswap|].
  split; [eapply list_elem_of_lookup_2; exact Hnonce|].
  repeat split; assumption.
Qed.
End Extras.

(** ** The further properties on concrete runs *)

Lemma int_of_str_round_trip_witness :
  Z.abs 1500000 < 10 ^ 4300 /\ int_of_string (py_str 1500000) = inr 1500000.
Proof.
  assert (H : Z.abs 1500000 < 10 ^ 4300) by (vm_compute; reflexivity).
  split; [exact H | exact (int_of_str_round_trip 1500000 H)].
Defined.

Lemma pad_bounds_witness :
  (exists y, pad 20000000000 = inr y) /\
  20000000000 <= 30000000000 <= 2 * 20000000000.
Proof.
  destruct (pad_bounds 20000000000 ltac:(lia)) as [Htotal Hbounds].
  split; [apply Htotal; lia | apply Hbounds; reflexivity].
Defined.

Lemma swap_params_fields_witness :
  let kwargs := [("gasLevel", PStr "fast"); ("userWalletAddress", PStr "0xEve")] in
  let params := swap_params "1" demo_token NATIVE "1500000" (PStr "0xA11ce")
                  (Some "0xBob") "0.03" kwargs in
  keyword_arguments create_swap_parameters kwargs /\
  dict_get params "amount" = Some (PStr "1500000") /\
  dict_get params "userWalletAddress" = Some (PStr "0xEve") /\
  dict_get params "chainId" = Some (PStr "1").
Proof.
  intros kwargs params.
  assert (Hkw : keyword_arguments create_swap_parameters kwargs).
  { split.
    - repeat first
        [ apply NoDup_nil_2
        | apply NoDup_cons_2;
          [rewrite ?not_elem_of_cons; repeat split;
           first [discriminate | apply not_elem_of_nil]|] ].
    - apply Forall_cons_2; [|apply Forall_cons_2; [|apply Forall_nil_2]].
      all: cbn [fst]; unfold create_swap_parameters; rewrite ?not_elem_of_cons.
      all: repeat split; first [discriminate | apply not_elem_of_nil]. }
  destruct (swap_params_fields "1" demo_token NATIVE "1500000" (PStr "0xA11ce")
              (Some "0xBob") "0.03" kwargs Hkw) as (Hamount & _ & Hget).
  assert (Hwallet : "userWalletAddress" <> "swapReceiverAddress") by discriminate.
  assert (Hchain : "chainId" <> "swapReceiverAddress") by discriminate.
  split; [exact Hkw|]. split; [exact Hamount|]. split.
  - exact (Hget "userWalletAddress" (or_introl Hwallet)).
  - exact (Hget "chainId" (or_introl Hchain)).
Defined.

Lemma execute_swap_native_calls_witness :
  map site (calls (demo_execute_swap demo_script "1" NATIVE demo_token None
                     "default" []))
    `sublist_of` native_sites.
Proof.
  exact (execute_swap_native_calls
    (okx := script_okx demo_script) (web3 := script_web3 demo_script)
    demo_wallets demo_natives demo_service "1" NATIVE demo_token "1.5" None "0.03"
    "default" [] 0%nat eq_refl).
Defined.

Lemma execute_swap_wallet_witness :
  let approval :=
    Ev 55 (SendTransaction (MkHelper "1" 0)
             (PDict [("nonce", PInt 0); ("to", PStr demo_token);
                     ("gasPrice", PInt 30000000000); ("gas", PInt 105000);
                     ("data", PStr "0x095ea7b3"); ("value", PInt 0);
                     ("chainId", PInt 1)])
             (PStr "k0"))
       (inr (RStr "0xaaa")) in
  approval ∈ calls (execute_swap (okx := script_okx demo_script)
                      (web3 := script_web3 demo_script) two_wallets demo_natives
                      demo_service "1" demo_token NATIVE "1.5" None "0.03" "trader" []
                      0%nat) /\
  getitem (wallet_config demo_service) "private_key" = inr (PStr "k0") /\
  getitem (PDict [("address", PStr "0xB0b"); ("private_key", PStr "k1")]) "private_key"
    <> inr (PStr "k0").
Proof.
  intros approval.
  assert (Hin : approval ∈ calls (execute_swap (okx := script_okx demo_script)
                      (web3 := script_web3 demo_script) two_wallets demo_natives
                      demo_service "1" demo_token NATIVE "1.5" None "0.03" "trader" []
                      0%nat)).
  { vm_compute. find_ev. }
  split; [exact Hin|].
  destruct (execute_swap_wallet
    (okx := script_okx demo_script) (web3 := script_web3 demo_script)
    two_wallets demo_natives demo_service "1" demo_token NATIVE "1.5" None "0.03"
    "trader" [] 0%nat
    (PDict [("address", PStr "0xA11ce"); ("private_key", PStr "k0")])
    (PDict [("address", PStr "0xB0b"); ("private_key", PStr "k1")])
    (PStr "0xB0b") approval eq_refl eq_refl eq_refl Hin) as (_ & _ & Hsend).
  destruct (Hsend _ _ _ eq_refl) as [[_ Hkey]|[Hsite _]].
  - split; [exact Hkey | discriminate].
  - exfalso. apply Hsite. reflexivity.
Defined.

Lemma execute_swap_without_default_witness :
  outcome (execute_swap (okx := script_okx demo_script) (web3 := script_web3 demo_script)
             headless_wallets demo_natives demo_service "1" demo_token NATIVE "1.5"
             None "0.03" "main" [] 0%nat)
    = inl (KeyError (PStr "default")).
Proof.
  rewrite (proj2 (execute_swap_without_default
    (okx := script_okx demo_script) (web3 := script_web3 demo_script)
    headless_wallets demo_natives demo_service "1" demo_token NATIVE "1.5" None "0.03"
    "main" [] 0%nat eq_refl)).
  reflexivity.
Defined.

Lemma check_and_approve_requests_witness :
  exists params approve_data,
    Ev 22 (GetApproveTransaction params) (inr (RJson approve_data))
      ∈ calls (demo_check_and_approve demo_script) /\
    res_bind (getitem approve_data "data")
      (fun d => res_bind (getindex d 0) (fun d0 => getitem d0 "spenderAddress"))
      = inr (PStr "0x5pender").
Proof.
  destruct (check_and_approve_requests
    (okx := script_okx demo_script) (web3 := script_web3 demo_script)
    demo_service "1" demo_token (PStr "0xA11ce") "1500000" 0%nat
    (Ev 31 (GetAllowance (MkHelper "1" 0) demo_token (PStr "0xA11ce") (PStr "0x5pender"))
        (inr (RInt 0)))) as [_ Hallowance].
  - vm_compute. find_ev.
  - destruct (Hallowance (MkHelper "1" 0) demo_token (PStr "0xA11ce") (PStr "0x5pender")
                eq_refl) as (_ & _ & H).
    exact H.
Defined.

Lemma check_and_approve_transaction_witness :
  exists nonce, Ev 43 (GetTransactionCount (MkHelper "1" 0) (PStr "0xA11ce"))
                  (inr (RInt nonce))
                  ∈ calls (demo_check_and_approve demo_script).
Proof.
  set (transaction :=
         PDict [("nonce", PInt 0); ("to", PStr demo_token);
                ("gasPrice", PInt 30000000000); ("gas", PInt 105000);
                ("data", PStr "0x095ea7b3"); ("value", PInt 0);
                ("chainId", PInt 1)]).
  destruct (check_and_approve_transaction
    (okx := script_okx demo_script) (web3 := script_web3 demo_script)
    demo_service "1" demo_token (PStr "0xA11ce") "1500000" 0%nat
    (Ev 55 (SendTransaction (MkHelper "1" 0) transaction (PStr "k0"))
        (inr (RStr "0xaaa")))
    (MkHelper "1" 0) transaction (PStr "k0"))
    as (nonce & gas_price & gas & data & chain & _ & Hnonce & _).
  - vm_compute. find_ev.
  - reflexivity.
  - exists nonce. exact Hnonce.
Defined.


Lemma swap_request_witness :
  exists h decimals wei,
    Ev 86 (ParseTokenAmount h "1.5" decimals) (inr (RInt wei))
      ∈ calls (demo_create_swap_transaction demo_script None []).
Proof.
  set (request := PDict (swap_params "1" demo_token NATIVE "1500000" (PStr "0xA11ce")
                           None "0.03" [])).
  destruct (swap_request
    (okx := script_okx demo_script) (web3 := script_web3 demo_script)
    demo_natives demo_service "1" demo_token NATIVE "1.5" (PStr "0xA11ce") None "0.03"
    [] 0%nat (Ev 115 (GetSwap request) (inr (RJson demo_swap))) request)
    as (h & decimals & wei & Hin & _).
  - vm_compute. find_ev.
  - reflexivity.
  - exists h, decimals, wei. exact Hin.
Defined.

Lemma execute_swap_amounts_witness :
  exists h decimals wei,
    calls (demo_execute_swap demo_script "1" demo_token NATIVE None "default" [])
      !! 2%nat
    = Some (Ev 86 (ParseTokenAmount h "1.5" decimals) (inr (RInt wei))).
Proof.
  destruct (execute_swap_amounts
    (okx := script_okx demo_script) (web3 := script_web3 demo_script)
    demo_wallets demo_natives demo_service "1" demo_token NATIVE "1.5" None "0.03"
    "default" [] 0%nat "0xbbb")
    as (h & decimals & wei & _ & _ & _ & _ & _ & _ & H1 & _).
  - vm_compute. reflexivity.
  - exists h, decimals, wei. exact H1.
Defined.

Lemma execute_swap_transaction_witness :
  exists h transaction key,
    last (calls (demo_execute_swap demo_script "1" demo_token NATIVE None "default" []))
    = Some (Ev 178 (SendTransaction h transaction key) (inr (RStr "0xbbb"))).
Proof.
  destruct (execute_swap_transaction
    (okx := script_okx demo_script) (web3 := script_web3 demo_script)
    demo_wallets demo_natives demo_service "1" demo_token NATIVE "1.5" None "0.03"
    "default" [] 0%nat "0xbbb")
    as (h & params & swap_data & tx_info & address & nonce & to & gas_price & gas
        & data & value & chain & key & Hlast & _).
  - vm_compute. reflexivity.
  - do 3 eexists. exact Hlast.
Defined.
